(** * go-avs: the message envelope and its typed variants (message.go)

    A shallow embedding of [message.go] (package [avs]): the generic
    [Message] (header map plus raw JSON payload), the ten typed messages
    that embed a [*Message], the dispatch [Typed] with its helper [fill],
    the constructors and the derived accessors.

    Layout:
    - [Float64], [time]: the Go numeric types the accessors compute with
      (IEEE 754 binary64 through [SpecFloat], [int64] with wrap-around,
      [time.Duration]);
    - [Json]: the part of Go's [encoding/json] that [fill] calls
      ([json.Unmarshal] into a struct), as a scanner automaton followed by
      the decoding of the scanned value;
    - the package itself: heap of [Message]s, typed messages, [Typed];
    - the properties. *)

From Stdlib Require Import ZArith String Ascii List Lia Floats.SpecFloat.
From Stdlib Require Import Strings.Byte.
From stdpp Require Import base option list gmap strings.

Set Warnings "-register-all".
Set Default Proof Using "Type".

Local Open Scope Z_scope.

(* ===================================================================== *)
(** * Go's numeric types *)
(* ===================================================================== *)

(** [int64]: a two's complement 64-bit integer, as the [Z] in its range.
    Arithmetic wraps around. *)
Definition min_int64 : Z := - 2 ^ 63.
Definition max_int64 : Z := 2 ^ 63 - 1.

Definition is_int64 (z : Z) : bool := (min_int64 <=? z) && (z <=? max_int64).

Definition wrap64 (z : Z) : Z := (z + 2 ^ 63) mod 2 ^ 64 - 2 ^ 63.

Module Float64.

(** [float64] is IEEE 754 binary64; [SpecFloat] gives its operations with
    round-to-nearest-even on the exact result. *)
Definition t : Type := spec_float.

Definition prec : Z := 53.
Definition emax : Z := 1024.

Definition zero : t := S754_zero false.

Definition add : t -> t -> t := SFadd prec emax.
Definition mul : t -> t -> t := SFmul prec emax.
Definition div : t -> t -> t := SFdiv prec emax.

(** The conversion [float64(i)] of an integer: the nearest [float64]. *)
Definition of_int (i : Z) : t := binary_normalize prec emax i 0 false.

(** The integer part of a finite value, the fraction discarded (towards
    zero). *)
Definition truncate (f : t) : option Z :=
  match f with
  | S754_zero _ => Some 0
  | S754_finite s m e =>
      let a := Z.shiftl (Zpos m) e in
      Some (if s then - a else a)
  | S754_infinity _ | S754_nan => None
  end.

(** The conversion [int64(f)]: the fraction is discarded; when the
    truncated value is not an [int64] (or [f] is an infinity or a NaN)
    the Go specification leaves the result to the implementation, here
    the function [oob]. *)
Definition to_int64 (oob : t -> Z) (f : t) : Z :=
  match truncate f with
  | Some z => if is_int64 z then z else wrap64 (oob f)
  | None => wrap64 (oob f)
  end.

(** [f] is exactly the integer [k]. *)
Definition is_integer (f : t) (k : Z) : Prop :=
  match f with
  | S754_zero _ => k = 0
  | S754_finite s m e =>
      let a := if s then Zneg m else Zpos m in
      a * 2 ^ Z.max e 0 = k * 2 ^ Z.max (- e) 0
  | S754_infinity _ | S754_nan => False
  end.

(** [f] times the integer [c] is exactly the integer [d]. *)
Definition scaled_is (c : Z) (f : t) (d : Z) : Prop :=
  match f with
  | S754_zero _ => d = 0
  | S754_finite s m e =>
      let a := if s then Zneg m else Zpos m in
      a * c * 2 ^ Z.max e 0 = d * 2 ^ Z.max (- e) 0
  | S754_infinity _ | S754_nan => False
  end.

End Float64.

(** The part of Go's package [time] that [message.go] uses. *)
Module time.

(** [type Duration int64], a count of nanoseconds. *)
Definition Duration : Type := Z.

Definition Nanosecond : Duration := 1.
Definition Millisecond : Duration := 1000000.
Definition Second : Duration := 1000000000.

(** [func (d Duration) Seconds() float64]:
    [sec := d / Second; nsec := d % Second;
     return float64(sec) + float64(nsec)/1e9].
    Go's [/] and [%] on integers truncate towards zero. *)
Definition Seconds (d : Duration) : Float64.t :=
  let sec := Z.quot d Second in
  let nsec := Z.rem d Second in
  Float64.add (Float64.of_int sec)
              (Float64.div (Float64.of_int nsec) (Float64.of_int 1000000000)).

(** [a * b] on [Duration]s: [int64] multiplication. *)
Definition mul (a b : Duration) : Duration := wrap64 (a * b).

End time.

(* ===================================================================== *)
(** * Go's encoding/json, as far as [fill] uses it *)
(* ===================================================================== *)

(** [fill] calls [json.Unmarshal(src.Payload, &dst.Payload)] and drops the
    error. [Unmarshal] first runs [checkValid] (scanner.go), a byte-by-byte
    automaton; only when the whole input is one valid JSON text does it
    decode into the destination (decode.go). The automaton below has the
    states and the transitions of scanner.go and builds, as it goes, the
    value it has read; the decoding then works on that value. *)
Module Json.

Definition code (c : byte) : Z := Z.of_N (Byte.to_N c).
Definition of_code (z : Z) : byte :=
  match Byte.of_N (Z.to_N z) with Some b => b | None => x00 end.

Notation "c == d" := (Byte.eqb c d) (at level 70, no associativity).

Definition quote : byte := x22.
Definition backslash : byte := x5c.

Definition between (lo hi : Z) (c : byte) : bool :=
  (lo <=? code c) && (code c <=? hi).

(** ** The values read *)

(** A character of a string literal: a byte written as it is, a simple
    escape (kept as the byte it stands for), or a [\uXXXX] escape (kept as
    the 16-bit number). *)
Inductive item :=
| Raw (c : byte)
| Esc (c : byte)
| U (r : Z).

(** A number literal: sign, the digits of the integer and fraction parts
    read as one integer [mant], the count [frac] of fraction digits, and
    the exponent; it denotes [mant * 10 ^ (exp - frac)], negated when
    [neg]. *)
Record number := Num {
  neg : bool;
  mant : Z;
  frac : Z;
  eneg : bool;
  expo : Z
}.

Inductive value :=
| Null
| Bool (b : bool)
| Number (n : number)
| Str (s : list item)
| Array (elems : list value)
| Object (members : list (list item * value)).

(** ** The scanner (scanner.go) *)

(** The step functions of scanner.go, as states. *)
Inductive state :=
| stateBeginValueOrEmpty | stateBeginValue
| stateBeginStringOrEmpty | stateBeginString
| stateEndValue | stateEndTop
| stateInString | stateInStringEsc
| stateInStringEscU | stateInStringEscU1
| stateInStringEscU12 | stateInStringEscU123
| stateNeg | state1 | state0
| stateDot | stateDot0
| stateE | stateESign | stateE0
| stateT | stateTr | stateTru
| stateF | stateFa | stateFal | stateFals
| stateN | stateNu | stateNul
| stateError.

(** An entry of the scanner's [parseState] stack, with what the composite
    value under construction holds so far. In [parseObjectKey] and
    [parseObjectValue] the key is the one read and not yet paired with its
    value. *)
Inductive frame :=
| parseObjectKey (members : list (list item * value)) (key : option (list item))
| parseObjectValue (members : list (list item * value)) (key : option (list item))
| parseArrayValue (elems : list value).

Definition maxNestingDepth : Z := 10000.

Record scanner := Scanner {
  step : state;
  parseState : list frame;
  lit : list item;      (* the string literal being read, last item first *)
  hex : Z;              (* the digits read of a \u escape *)
  num : number;         (* the number literal being read *)
  top : option value    (* the top-level value, once complete *)
}.

Definition num0 : number := Num false 0 0 false 0.

(** [scan.reset()] *)
Definition reset : scanner := Scanner stateBeginValue [] [] 0 num0 None.

Definition goto (st : state) (s : scanner) : scanner :=
  Scanner st (parseState s) (lit s) (hex s) (num s) (top s).

Definition with_stack (ps : list frame) (s : scanner) : scanner :=
  Scanner (step s) ps (lit s) (hex s) (num s) (top s).

Definition with_lit (l : list item) (s : scanner) : scanner :=
  Scanner (step s) (parseState s) l (hex s) (num s) (top s).

Definition with_hex (h : Z) (s : scanner) : scanner :=
  Scanner (step s) (parseState s) (lit s) h (num s) (top s).

Definition with_num (n : number) (s : scanner) : scanner :=
  Scanner (step s) (parseState s) (lit s) (hex s) n (top s).

(** [s.error(c, context)] *)
Definition error (s : scanner) : scanner := goto stateError s.

Definition isSpace (c : byte) : bool :=
  (c == " "%byte) || (c == x09) || (c == x0d) || (c == x0a).

Definition isDigit (c : byte) : bool := between 48 57 c.
Definition digit (c : byte) : Z := code c - 48.

Definition hexdigit (c : byte) : option Z :=
  if between 48 57 c then Some (code c - 48)
  else if between 97 102 c then Some (code c - 87)
  else if between 65 70 c then Some (code c - 55)
  else None.

(** A value is complete: it becomes the top-level value, the pending key or
    the next member or element of the composite on top of the stack. *)
Definition complete (v : value) (s : scanner) : scanner :=
  match parseState s with
  | [] => Scanner (step s) [] (lit s) (hex s) (num s) (Some v)
  | parseObjectKey ms None :: ps =>
      match v with
      | Str k => with_stack (parseObjectKey ms (Some k) :: ps) s
      | _ => error s
      end
  | parseObjectValue ms (Some k) :: ps =>
      with_stack (parseObjectValue (ms ++ [(k, v)]) None :: ps) s
  | parseArrayValue vs :: ps =>
      with_stack (parseArrayValue (vs ++ [v]) :: ps) s
  | _ => error s
  end.

(** [s.pushParseState(c, newParseState, successState)] *)
Definition pushParseState (f : frame) (s : scanner) : scanner :=
  let ps := f :: parseState s in
  if Z.of_nat (length ps) <=? maxNestingDepth then with_stack ps s else error s.

(** [s.popParseState()], the composite [v] on top of the stack being
    complete. *)
Definition popParseState (v : value) (ps : list frame) (s : scanner) : scanner :=
  let s' := complete v (goto stateEndValue (with_stack ps s)) in
  match step s', ps with
  | stateError, _ => s'
  | _, [] => goto stateEndTop s'
  | _, _ => s'
  end.

Definition on_stateEndTop (s : scanner) (c : byte) : scanner :=
  if isSpace c then s else error s.

Definition on_stateEndValue (s : scanner) (c : byte) : scanner :=
  match parseState s with
  | [] => on_stateEndTop (goto stateEndTop s) c
  | f :: ps =>
      if isSpace c then goto stateEndValue s
      else
        match f with
        | parseObjectKey ms key =>
            if c == ":"%byte
            then goto stateBeginValue (with_stack (parseObjectValue ms key :: ps) s)
            else error s
        | parseObjectValue ms _ =>
            if c == ","%byte
            then goto stateBeginString (with_stack (parseObjectKey ms None :: ps) s)
            else if c == "}"%byte then popParseState (Object ms) ps s
            else error s
        | parseArrayValue vs =>
            if c == ","%byte then goto stateBeginValue s
            else if c == "]"%byte then popParseState (Array vs) ps s
            else error s
        end
  end.

(** A literal ends at its last byte: the step becomes [stateEndValue]. *)
Definition endLiteral (v : value) (s : scanner) : scanner :=
  complete v (goto stateEndValue s).

(** A number ends at the first byte that cannot continue it; that byte is
    then handled by [stateEndValue]. *)
Definition endNumber (s : scanner) (c : byte) : scanner :=
  let s' := complete (Number (num s)) s in
  match step s' with
  | stateError => s'
  | _ => on_stateEndValue s' c
  end.

Definition on_stateBeginValue (s : scanner) (c : byte) : scanner :=
  if isSpace c then s
  else if c == "{"%byte
  then pushParseState (parseObjectKey [] None) (goto stateBeginStringOrEmpty s)
  else if c == "["%byte
  then pushParseState (parseArrayValue []) (goto stateBeginValueOrEmpty s)
  else if c == quote then goto stateInString (with_lit [] s)
  else if c == "-"%byte then goto stateNeg (with_num (Num true 0 0 false 0) s)
  else if c == "0"%byte then goto state0 (with_num num0 s)
  else if c == "t"%byte then goto stateT s
  else if c == "f"%byte then goto stateF s
  else if c == "n"%byte then goto stateN s
  else if between 49 57 c
  then goto state1 (with_num (Num false (digit c) 0 false 0) s)
  else error s.

Definition on_stateBeginValueOrEmpty (s : scanner) (c : byte) : scanner :=
  if isSpace c then s
  else if c == "]"%byte then on_stateEndValue s c
  else on_stateBeginValue s c.

Definition on_stateBeginString (s : scanner) (c : byte) : scanner :=
  if isSpace c then s
  else if c == quote then goto stateInString (with_lit [] s)
  else error s.

Definition on_stateBeginStringOrEmpty (s : scanner) (c : byte) : scanner :=
  if isSpace c then s
  else if c == "}"%byte then
    match parseState s with
    | parseObjectKey ms key :: ps =>
        on_stateEndValue (with_stack (parseObjectValue ms key :: ps) s) c
    | _ => error s
    end
  else on_stateBeginString s c.

Definition on_stateInString (s : scanner) (c : byte) : scanner :=
  if c == quote then endLiteral (Str (rev (lit s))) s
  else if c == backslash then goto stateInStringEsc s
  else if code c <? 32 then error s
  else with_lit (Raw c :: lit s) s.

Definition escaped (c : byte) : option byte :=
  if c == "b"%byte then Some x08
  else if c == "f"%byte then Some x0c
  else if c == "n"%byte then Some x0a
  else if c == "r"%byte then Some x0d
  else if c == "t"%byte then Some x09
  else if c == backslash then Some backslash
  else if c == "/"%byte then Some "/"%byte
  else if c == quote then Some quote
  else None.

Definition on_stateInStringEsc (s : scanner) (c : byte) : scanner :=
  match escaped c with
  | Some b => goto stateInString (with_lit (Esc b :: lit s) s)
  | None =>
      if c == "u"%byte then goto stateInStringEscU (with_hex 0 s) else error s
  end.

(** [stateInStringEscU], [..U1], [..U12]: one more hexadecimal digit. *)
Definition on_hex (next : state) (s : scanner) (c : byte) : scanner :=
  match hexdigit c with
  | Some d => goto next (with_hex (hex s * 16 + d) s)
  | None => error s
  end.

Definition on_stateInStringEscU123 (s : scanner) (c : byte) : scanner :=
  match hexdigit c with
  | Some d => goto stateInString (with_lit (U (hex s * 16 + d) :: lit s) s)
  | None => error s
  end.

Definition more_mant (d : Z) (n : number) : number :=
  Num (neg n) (mant n * 10 + d) (frac n) (eneg n) (expo n).

Definition more_frac (d : Z) (n : number) : number :=
  Num (neg n) (mant n * 10 + d) (frac n + 1) (eneg n) (expo n).

Definition more_expo (d : Z) (n : number) : number :=
  Num (neg n) (mant n) (frac n) (eneg n) (expo n * 10 + d).

Definition neg_expo (n : number) : number :=
  Num (neg n) (mant n) (frac n) true (expo n).

Definition on_stateNeg (s : scanner) (c : byte) : scanner :=
  if c == "0"%byte then goto state0 s
  else if between 49 57 c then goto state1 (with_num (more_mant (digit c) (num s)) s)
  else error s.

Definition on_state0 (s : scanner) (c : byte) : scanner :=
  if c == "."%byte then goto stateDot s
  else if (c == "e"%byte) || (c == "E"%byte) then goto stateE s
  else endNumber s c.

Definition on_state1 (s : scanner) (c : byte) : scanner :=
  if isDigit c then goto state1 (with_num (more_mant (digit c) (num s)) s)
  else on_state0 s c.

Definition on_stateDot (s : scanner) (c : byte) : scanner :=
  if isDigit c then goto stateDot0 (with_num (more_frac (digit c) (num s)) s)
  else error s.

Definition on_stateDot0 (s : scanner) (c : byte) : scanner :=
  if isDigit c then with_num (more_frac (digit c) (num s)) s
  else if (c == "e"%byte) || (c == "E"%byte) then goto stateE s
  else endNumber s c.

Definition on_stateESign (s : scanner) (c : byte) : scanner :=
  if isDigit c then goto stateE0 (with_num (more_expo (digit c) (num s)) s)
  else error s.

Definition on_stateE (s : scanner) (c : byte) : scanner :=
  if c == "+"%byte then goto stateESign s
  else if c == "-"%byte then goto stateESign (with_num (neg_expo (num s)) s)
  else on_stateESign s c.

Definition on_stateE0 (s : scanner) (c : byte) : scanner :=
  if isDigit c then with_num (more_expo (digit c) (num s)) s
  else endNumber s c.

(** [stateT], [stateTr], ...: the next letter of [true], [false], [null]. *)
Definition on_letter (want : byte) (next : state) (s : scanner) (c : byte) : scanner :=
  if c == want then goto next s else error s.

Definition on_last_letter (want : byte) (v : value) (s : scanner) (c : byte) : scanner :=
  if c == want then endLiteral v s else error s.

(** [scan.step(scan, c)] *)
Definition step_byte (s : scanner) (c : byte) : scanner :=
  match step s with
  | stateBeginValueOrEmpty => on_stateBeginValueOrEmpty s c
  | stateBeginValue => on_stateBeginValue s c
  | stateBeginStringOrEmpty => on_stateBeginStringOrEmpty s c
  | stateBeginString => on_stateBeginString s c
  | stateEndValue => on_stateEndValue s c
  | stateEndTop => on_stateEndTop s c
  | stateInString => on_stateInString s c
  | stateInStringEsc => on_stateInStringEsc s c
  | stateInStringEscU => on_hex stateInStringEscU1 s c
  | stateInStringEscU1 => on_hex stateInStringEscU12 s c
  | stateInStringEscU12 => on_hex stateInStringEscU123 s c
  | stateInStringEscU123 => on_stateInStringEscU123 s c
  | stateNeg => on_stateNeg s c
  | state1 => on_state1 s c
  | state0 => on_state0 s c
  | stateDot => on_stateDot s c
  | stateDot0 => on_stateDot0 s c
  | stateE => on_stateE s c
  | stateESign => on_stateESign s c
  | stateE0 => on_stateE0 s c
  | stateT => on_letter "r"%byte stateTr s c
  | stateTr => on_letter "u"%byte stateTru s c
  | stateTru => on_last_letter "e"%byte (Bool true) s c
  | stateF => on_letter "a"%byte stateFa s c
  | stateFa => on_letter "l"%byte stateFal s c
  | stateFal => on_letter "s"%byte stateFals s c
  | stateFals => on_last_letter "e"%byte (Bool false) s c
  | stateN => on_letter "u"%byte stateNu s c
  | stateNu => on_letter "l"%byte stateNul s c
  | stateNul => on_last_letter "l"%byte Null s c
  | stateError => s
  end.

(** [scan.eof()]: the input is over; a number at top level ends here. *)
Definition eof (s : scanner) : option value :=
  match step s with
  | stateError => None
  | stateEndTop => top s
  | _ =>
      let s' := step_byte s " "%byte in
      match step s' with
      | stateEndTop => top s'
      | _ => None
      end
  end.

(** [checkValid(data, scan)] with the value read: [None] is a syntax
    error. *)
Definition parse (data : list byte) : option value :=
  eof (fold_left step_byte data reset).

(** ** Strings (decode.go, [unquote]) *)

(** [utf8.EncodeRune] on a Unicode scalar value. *)
Definition EncodeRune (r : Z) : list byte :=
  if r <? 128 then [of_code r]
  else if r <? 2048 then
    [of_code (192 + Z.shiftr r 6); of_code (128 + Z.land r 63)]
  else if r <? 65536 then
    [of_code (224 + Z.shiftr r 12);
     of_code (128 + Z.land (Z.shiftr r 6) 63);
     of_code (128 + Z.land r 63)]
  else
    [of_code (240 + Z.shiftr r 18);
     of_code (128 + Z.land (Z.shiftr r 12) 63);
     of_code (128 + Z.land (Z.shiftr r 6) 63);
     of_code (128 + Z.land r 63)].

(** [unicode.ReplacementChar], U+FFFD, encoded. *)
Definition replacement : list byte := [xef; xbf; xbd].

Definition isSurrogate (r : Z) : bool := (55296 <=? r) && (r <? 57344).

(** [utf16.DecodeRune(r1, r2)]: the code point of a surrogate pair, when
    it is one. *)
Definition decodeSurrogates (r1 r2 : Z) : option Z :=
  if (55296 <=? r1) && (r1 <? 56320) && (56320 <=? r2) && (r2 <? 57344)
  then Some (Z.lor (Z.shiftl (r1 - 55296) 10) (r2 - 56320) + 65536)
  else None.

(** Well-formed UTF-8 (the ranges [utf8.DecodeRune] accepts): the length
    announced by a leading byte, and the range of the byte after it. *)
Definition utf8_length (c : byte) : Z :=
  if between 194 223 c then 2
  else if between 224 239 c then 3
  else if between 240 244 c then 4
  else 0.

Definition utf8_second (c c1 : byte) : bool :=
  if c == xe0 then between 160 191 c1
  else if c == xed then between 128 159 c1
  else if c == xf0 then between 144 191 c1
  else if c == xf4 then between 128 143 c1
  else between 128 191 c1.

Definition utf8_cont (c : byte) : bool := between 128 191 c.

(** The bytes a string literal stands for: escapes replaced, a surrogate
    pair of [\u] escapes joined, a lone surrogate and every byte that is
    not part of well-formed UTF-8 replaced by U+FFFD. *)
Fixpoint unquote (s : list item) : list byte :=
  match s with
  | [] => []
  | Esc b :: rest => b :: unquote rest
  | U r :: rest =>
      if isSurrogate r then
        match rest with
        | U r1 :: rest1 =>
            match decodeSurrogates r r1 with
            | Some d => EncodeRune d ++ unquote rest1
            | None => replacement ++ unquote rest
            end
        | _ => replacement ++ unquote rest
        end
      else EncodeRune r ++ unquote rest
  | Raw c :: rest =>
      if code c <? 128 then c :: unquote rest
      else
        match rest with
        | Raw c1 :: rest1 =>
            if (utf8_length c =? 2) && utf8_second c c1
            then c :: c1 :: unquote rest1
            else
              match rest1 with
              | Raw c2 :: rest2 =>
                  if (utf8_length c =? 3) && utf8_second c c1 && utf8_cont c2
                  then c :: c1 :: c2 :: unquote rest2
                  else
                    match rest2 with
                    | Raw c3 :: rest3 =>
                        if (utf8_length c =? 4) && utf8_second c c1
                           && utf8_cont c2 && utf8_cont c3
                        then c :: c1 :: c2 :: c3 :: unquote rest3
                        else replacement ++ unquote rest
                    | _ => replacement ++ unquote rest
                    end
              | _ => replacement ++ unquote rest
              end
        | _ => replacement ++ unquote rest
        end
  end.

(** ** Numbers ([strconv.ParseFloat(s, 64)]) *)

(** The [float64] nearest to the decimal number; [None] when it is out of
    range ([ErrRange]: the result would be an infinity). *)
Definition ParseFloat (n : number) : option Float64.t :=
  let e := (if eneg n then - expo n else expo n) - frac n in
  match mant n with
  | Zpos m =>
      let f :=
        if 0 <=? e
        then binary_normalize Float64.prec Float64.emax
               (if neg n then - (Zpos m * 10 ^ e) else Zpos m * 10 ^ e) 0 (neg n)
        else Float64.div (S754_finite (neg n) m 0)
                         (S754_finite false (Z.to_pos (10 ^ (- e))) 0) in
      match f with
      | S754_infinity _ | S754_nan => None
      | _ => Some f
      end
  | _ => Some (S754_zero (neg n))
  end.

(** ** Field names ([bytes.EqualFold] on an ASCII name) *)

Definition upper (c : byte) : byte :=
  if between 97 122 c then of_code (code c - 32) else c.

(** [name], all ASCII, equals [key] under Unicode simple case folding:
    letter case is ignored, and the only characters outside ASCII that
    fold to an ASCII letter are U+212A (Kelvin sign, to k) and U+017F
    (long s, to s). *)
Fixpoint equalFold (name key : list byte) : bool :=
  match name, key with
  | [], [] => true
  | n :: name', k :: key' =>
      if code k <? 128 then (upper n == upper k) && equalFold name' key'
      else
        match key' with
        | k1 :: key'' =>
            if (k == xc5) && (k1 == xbf)
            then (upper n == "S"%byte) && equalFold name' key''
            else
              match key'' with
              | k2 :: key''' =>
                  (k == xe2) && (k1 == x84) && (k2 == xaa)
                  && (upper n == "K"%byte) && equalFold name' key'''
              | [] => false
              end
        | [] => false
        end
  | _, _ => false
  end.

(** ** Decoding into Go values (decode.go) *)

(** A Go type a JSON value can be stored in: its zero value, and what
    [d.value] leaves in a variable of the type holding [cur]. A value of
    the wrong kind leaves the variable as it is (the decoder records an
    [UnmarshalTypeError] and goes on). *)
Class Field (T : Type) := {
  zero : T;
  store : value -> T -> T
}.

(** A Go [string]: set by a JSON string; [null] and every other kind
    leave it. *)
#[global] Instance string_field : Field string := {
  zero := EmptyString;
  store v cur :=
    match v with
    | Str s => string_of_list_byte (unquote s)
    | _ => cur
    end
}.

(** A Go [float64]: set by a JSON number in range. *)
#[global] Instance float64_field : Field Float64.t := {
  zero := Float64.zero;
  store v cur :=
    match v with
    | Number n =>
        match ParseFloat n with
        | Some f => f
        | None => cur
        end
    | _ => cur
    end
}.

(** A field of a struct of type [P]: its JSON name (the tag, or the Go
    name when there is no tag) and the assignment of a JSON value to it. *)
Record field (P : Type) := {
  name : string;
  assign : value -> P -> P
}.
Arguments name {P} _.
Arguments assign {P} _ _ _.

(** A Go struct type: its zero value and its fields in order. *)
Class Struct (P : Type) := {
  new : P;
  fields : list (field P)
}.

(** The field a key selects: the one with exactly that name, else the
    first one equal to it under case folding. *)
Definition find_field {P} (fs : list (field P)) (key : list byte) : option (field P) :=
  match find (fun f => String.eqb (name f) (string_of_list_byte key)) fs with
  | Some f => Some f
  | None => find (fun f => equalFold (list_byte_of_string (name f)) key) fs
  end.

(** [d.object]: the members in order, each stored in the field its key
    selects; a key that selects no field is skipped. *)
Definition member {P} `{Struct P} (p : P) (kv : list item * value) : P :=
  match find_field fields (unquote (fst kv)) with
  | Some f => assign f (snd kv) p
  | None => p
  end.

Definition object {P} `{Struct P} (ms : list (list item * value)) (p : P) : P :=
  fold_left member ms p.

(** [d.value] on a struct: an object is decoded member by member; [null]
    and every other kind leave the struct as it is. *)
Definition decode {P} `{Struct P} (v : value) (p : P) : P :=
  match v with
  | Object ms => object ms p
  | _ => p
  end.

(** [json.Unmarshal(data, &p)], the contents of [p] afterwards. On a
    syntax error nothing is stored. The error result is left out: the
    only caller drops it. *)
Definition Unmarshal {P} `{Struct P} (data : list byte) (p : P) : P :=
  match parse data with
  | Some v => decode v p
  | None => p
  end.

End Json.

(* ===================================================================== *)
(** * Package avs: messages on the heap *)
(* ===================================================================== *)

(** [type Message struct { Header map[string]string; Payload json.RawMessage }].
    A missing key of the header reads as the empty string; the payload is
    [None] for a nil [RawMessage]. *)
Record Message := {
  Header : gmap string string;
  Payload : option (list byte)
}.

(** A [*Message]: nil, or the address of a [Message] on the heap. Typed
    messages hold such a pointer, so several values can share one
    [Message]. *)
Definition loc : Type := positive.
Bind Scope positive_scope with loc.

Inductive pointer :=
| Nil
| Addr (l : loc).

Abbreviation heap := (gmap loc Message).

(** A computation on the heap: it ends with a value and a heap, or it
    panics (a nil pointer dereference). *)
Inductive outcome (A : Type) :=
| Ok (a : A) (h : heap)
| Panic.
Arguments Ok {A} _ _.
Arguments Panic {A}.

Definition go (A : Type) : Type := heap -> outcome A.

#[global] Instance go_ret : MRet go := fun A a h => Ok a h.

#[global] Instance go_bind : MBind go := fun A B f c h =>
  match c h with
  | Ok a h' => f a h'
  | Panic => Panic
  end.

#[global] Instance go_fmap : FMap go := fun A B f c h =>
  match c h with
  | Ok a h' => Ok (f a) h'
  | Panic => Panic
  end.

(** [*p] *)
Definition load (p : pointer) : go Message := fun h =>
  match p with
  | Addr l =>
      match h !! l with
      | Some m => Ok m h
      | None => Panic
      end
  | Nil => Panic
  end.

(** [&Message{...}]: a new cell, at an address not in use. *)
Definition alloc (m : Message) : go pointer := fun h =>
  let l := fresh (dom h) in
  Ok (Addr l) (<[l := m]> h).

(** [p.Header[k] = v], on a map that is not nil. A header with no entry
    stands for Go's empty map and for its nil map alike, and Go panics on
    an assignment to a nil map; [NewEvent], the one caller, assigns to the
    map literal it has just built, which has three entries. No property
    below is about this assignment on another message. *)
Definition set_header (p : pointer) (k v : string) : go unit := fun h =>
  match p with
  | Addr l =>
      match h !! l with
      | Some m =>
          Ok tt (<[l := {| Header := <[k := v]> (Header m); Payload := Payload m |}]> h)
      | None => Panic
      end
  | Nil => Panic
  end.

(** [h[k]] on a Go map: the zero value when the key is missing. *)
Definition index (h : gmap string string) (k : string) : string :=
  default EmptyString (h !! k).

(** The bytes of a [json.RawMessage]; a nil slice has none. *)
Definition bytes_of (raw : option (list byte)) : list byte :=
  default [] raw.

(** [func NewContext(namespace, name string) *Message] *)
Definition NewContext (namespace name : string) : go pointer :=
  alloc {| Header := {[ "namespace" := namespace; "name" := name ]};
           Payload := None |}.

(** [func NewEvent(namespace, name, messageId, dialogRequestId string) *Message] *)
Definition NewEvent (namespace name messageId dialogRequestId : string) : go pointer :=
  m ← alloc {| Header := {[ "namespace" := namespace;
                            "name" := name;
                            "messageId" := messageId ]};
               Payload := None |};
  _ ← (if negb (String.eqb dialogRequestId EmptyString)
       then set_header m "dialogRequestId" dialogRequestId
       else mret tt);
  mret m.

(** [func (m *Message) String() string]:
    [fmt.Sprintf("%s.%s", m.Header["namespace"], m.Header["name"])]. *)
Definition Message_String (m : pointer) : go string :=
  x ← load m;
  mret (index (Header x) "namespace" +:+ "." +:+ index (Header x) "name").

(** ** Typed messages *)

(** Every typed message is a struct of an embedded [*Message] and a field
    [Payload] of a struct type of its own. *)
Module typed.
Record t (P : Type) := Build {
  Message : pointer;
  Payload : P
}.
Arguments Build {P} _ _.
Arguments Message {P} _.
Arguments Payload {P} _.
End typed.

Module ClearQueue.
Record Payload (T : Type) := { ClearBehavior : T }.
Arguments Build_Payload {T} _.
Arguments ClearBehavior {T} _.

Definition t (T : Type) : Type := typed.t (Payload T).

#[global] Instance struct {T} `{Json.Field T} : Json.Struct (Payload T) := {
  new := {| ClearBehavior := Json.zero |};
  fields :=
    [ {| Json.name := "clearBehavior";
         Json.assign v p := {| ClearBehavior := Json.store v (ClearBehavior p) |} |} ]
}.
End ClearQueue.

Module Exception.
Record Payload := { Code : string; Description : string }.

Definition t : Type := typed.t Payload.

#[global] Instance struct : Json.Struct Payload := {
  new := {| Code := EmptyString; Description := EmptyString |};
  fields :=
    [ {| Json.name := "code";
         Json.assign v p :=
           {| Code := Json.store v (Code p); Description := Description p |} |};
      {| Json.name := "description";
         Json.assign v p :=
           {| Code := Code p; Description := Json.store v (Description p) |} |} ]
}.
End Exception.

Module ExpectSpeech.
Record Payload := { TimeoutInMilliseconds : Float64.t }.

Definition t : Type := typed.t Payload.

#[global] Instance struct : Json.Struct Payload := {
  new := {| TimeoutInMilliseconds := Float64.zero |};
  fields :=
    [ {| Json.name := "timeoutInMilliseconds";
         Json.assign v p :=
           {| TimeoutInMilliseconds := Json.store v (TimeoutInMilliseconds p) |} |} ]
}.

(** [func (m *ExpectSpeech) Timeout() time.Duration]:
    [time.Duration(m.Payload.TimeoutInMilliseconds) * time.Millisecond]. *)
Definition Timeout (oob : Float64.t -> Z) (m : t) : time.Duration :=
  time.mul (Float64.to_int64 oob (TimeoutInMilliseconds (typed.Payload m)))
           time.Millisecond.
End ExpectSpeech.

(** The three typed messages with [Payload struct{}]. *)
Module Empty.
Record Payload := {}.

Definition t : Type := typed.t Payload.

#[global] Instance struct : Json.Struct Payload := {
  new := Build_Payload;
  fields := []
}.
End Empty.

Definition ExpectSpeechTimedOut : Type := Empty.t.
Definition Stop : Type := Empty.t.
Definition SynchronizeState : Type := Empty.t.

Module Play.
Record Payload (A B : Type) := { AudioItem : A; PlayBehavior : B }.
Arguments Build_Payload {A B} _ _.
Arguments AudioItem {A B} _.
Arguments PlayBehavior {A B} _.

Definition t (A B : Type) : Type := typed.t (Payload A B).

#[global] Instance struct {A B} `{Json.Field A} `{Json.Field B} :
  Json.Struct (Payload A B) := {
  new := {| AudioItem := Json.zero; PlayBehavior := Json.zero |};
  fields :=
    [ {| Json.name := "audioItem";
         Json.assign v p :=
           {| AudioItem := Json.store v (AudioItem p);
              PlayBehavior := PlayBehavior p |} |};
      {| Json.name := "playBehavior";
         Json.assign v p :=
           {| AudioItem := AudioItem p;
              PlayBehavior := Json.store v (PlayBehavior p) |} |} ]
}.

(** [func (m *Play) DialogRequestId() string] *)
Definition DialogRequestId {A B} (m : t A B) : go string :=
  x ← load (typed.Message m); mret (index (Header x) "dialogRequestId").

(** [func (m *Play) MessageId() string] *)
Definition MessageId {A B} (m : t A B) : go string :=
  x ← load (typed.Message m); mret (index (Header x) "messageId").
End Play.

Module PlaybackState.
Record Payload (T : Type) := {
  Token : string;
  OffsetInMilliseconds : Float64.t;
  PlayerActivity : T
}.
Arguments Build_Payload {T} _ _ _.
Arguments Token {T} _.
Arguments OffsetInMilliseconds {T} _.
Arguments PlayerActivity {T} _.

Definition t (T : Type) : Type := typed.t (Payload T).

#[global] Instance struct {T} `{Json.Field T} : Json.Struct (Payload T) := {
  new := {| Token := EmptyString;
            OffsetInMilliseconds := Float64.zero;
            PlayerActivity := Json.zero |};
  fields :=
    [ {| Json.name := "token";
         Json.assign v p :=
           {| Token := Json.store v (Token p);
              OffsetInMilliseconds := OffsetInMilliseconds p;
              PlayerActivity := PlayerActivity p |} |};
      {| Json.name := "offsetInMilliseconds";
         Json.assign v p :=
           {| Token := Token p;
              OffsetInMilliseconds := Json.store v (OffsetInMilliseconds p);
              PlayerActivity := PlayerActivity p |} |};
      {| Json.name := "playerActivity";
         Json.assign v p :=
           {| Token := Token p;
              OffsetInMilliseconds := OffsetInMilliseconds p;
              PlayerActivity := Json.store v (PlayerActivity p) |} |} ]
}.

(** [func (m *PlaybackState) Offset() time.Duration]:
    [time.Duration(m.Payload.OffsetInMilliseconds) * time.Millisecond]. *)
Definition Offset {T} (oob : Float64.t -> Z) (m : t T) : time.Duration :=
  time.mul (Float64.to_int64 oob (OffsetInMilliseconds (typed.Payload m)))
           time.Millisecond.
End PlaybackState.

Module Recognize.
Record Payload := { Profile : string; Format : string }.

Definition t : Type := typed.t Payload.

#[global] Instance struct : Json.Struct Payload := {
  new := {| Profile := EmptyString; Format := EmptyString |};
  fields :=
    [ {| Json.name := "profile";
         Json.assign v p :=
           {| Profile := Json.store v (Profile p); Format := Format p |} |};
      {| Json.name := "format";
         Json.assign v p :=
           {| Profile := Profile p; Format := Json.store v (Format p) |} |} ]
}.
End Recognize.

Module Speak.
(** The two fields have no tag: their JSON names are the Go names. *)
Record Payload := { Format : string; URL : string }.

Definition t : Type := typed.t Payload.

#[global] Instance struct : Json.Struct Payload := {
  new := {| Format := EmptyString; URL := EmptyString |};
  fields :=
    [ {| Json.name := "Format";
         Json.assign v p :=
           {| Format := Json.store v (Format p); URL := URL p |} |};
      {| Json.name := "URL";
         Json.assign v p :=
           {| Format := Format p; URL := Json.store v (URL p) |} |} ]
}.

(** [strings.HasPrefix(s, prefix)]:
    [len(s) >= len(prefix) && s[:len(prefix)] == prefix]. *)
Definition HasPrefix (s prefix : string) : bool :=
  (String.length prefix <=? String.length s)%nat
  && String.eqb (substring 0 (String.length prefix) s) prefix.

(** [func (m *Speak) ContentId() string]: the empty string unless the URL
    has the prefix [cid:], else [m.Payload.URL[4:]]. *)
Definition ContentId (m : t) : string :=
  if negb (HasPrefix (URL (typed.Payload m)) "cid:") then EmptyString
  else substring 4 (String.length (URL (typed.Payload m)) - 4) (URL (typed.Payload m)).
End Speak.

(** ** The interface [TypedMessage], [fill] and [Typed] *)

(** [func fill(dst TypedMessage, src *Message) TypedMessage]: [dst] is a
    new typed message; its field [Message] is set to [src], then
    [json.Unmarshal(src.Payload, &dst.Payload)] runs and its error is
    dropped. The test [payload.Kind() != reflect.Struct], with its early
    return, is false at every call: the field [Payload] of each of the ten
    typed messages has a struct type, which is what the class
    [Json.Struct] stands for. *)
Definition fill {P} `{Json.Struct P} (dst : typed.t P) (src : pointer) : go (typed.t P) :=
  let dst := typed.Build src (typed.Payload dst) in
  x ← load src;
  mret (typed.Build (typed.Message dst)
          (Json.Unmarshal (bytes_of (Payload x)) (typed.Payload dst))).

(** [new(T)] for a typed message: a nil [*Message] and a zero payload. *)
Definition new_typed {P} `{Json.Struct P} : typed.t P := typed.Build Nil Json.new.

(** The ten discriminators of the switch in [Typed]. *)
Inductive Kind :=
| KClearQueue | KPlay | KPlaybackState | KStop
| KExpectSpeech | KExpectSpeechTimedOut | KRecognize
| KSpeak | KException | KSynchronizeState.

(** The types that [message.go] uses in payload fields and takes from
    another file of the package (types.go), each with its JSON decoding.
    Decoding a value into one of them is taken to return, like the decoding
    of the built-in types: none has a decoding method of its own that
    panics or stops the decoder. *)
Class Types := {
  AudioItem : Type;
  ClearBehavior : Type;
  PlayBehavior : Type;
  PlayerActivity : Type;
  AudioItem_field :: Json.Field AudioItem;
  ClearBehavior_field :: Json.Field ClearBehavior;
  PlayBehavior_field :: Json.Field PlayBehavior;
  PlayerActivity_field :: Json.Field PlayerActivity
}.

Section Package.

Context `{Types}.

(** A value of the interface [TypedMessage]: a [*Message], or one of the
    ten typed messages. Go holds a pointer to the typed message, and
    [Typed] allocates a new one at every call; here the struct itself
    stands for it. So two values of this type are equal when they have the
    same kind, the same [*Message] inside (which is a pointer, with its
    identity) and the same payload fields: the equality describes what a
    typed message holds and says nothing on whether two Go pointers to
    typed messages are the same pointer. *)
Inductive TypedMessage :=
| of_Message (m : pointer)
| of_ClearQueue (v : ClearQueue.t ClearBehavior)
| of_Play (v : Play.t AudioItem PlayBehavior)
| of_PlaybackState (v : PlaybackState.t PlayerActivity)
| of_Stop (v : Stop)
| of_ExpectSpeech (v : ExpectSpeech.t)
| of_ExpectSpeechTimedOut (v : ExpectSpeechTimedOut)
| of_Recognize (v : Recognize.t)
| of_Speak (v : Speak.t)
| of_Exception (v : Exception.t)
| of_SynchronizeState (v : SynchronizeState).

(** [GetMessage() *Message]: [m] itself on a [*Message]; on a typed
    message the method of the embedded [*Message], which returns that
    pointer. *)
Definition GetMessage (t : TypedMessage) : pointer :=
  match t with
  | of_Message m => m
  | of_ClearQueue v => typed.Message v
  | of_Play v => typed.Message v
  | of_PlaybackState v => typed.Message v
  | of_Stop v => typed.Message v
  | of_ExpectSpeech v => typed.Message v
  | of_ExpectSpeechTimedOut v => typed.Message v
  | of_Recognize v => typed.Message v
  | of_Speak v => typed.Message v
  | of_Exception v => typed.Message v
  | of_SynchronizeState v => typed.Message v
  end.

(** The dynamic type of an interface value. *)
Definition kind_of (t : TypedMessage) : option Kind :=
  match t with
  | of_Message _ => None
  | of_ClearQueue _ => Some KClearQueue
  | of_Play _ => Some KPlay
  | of_PlaybackState _ => Some KPlaybackState
  | of_Stop _ => Some KStop
  | of_ExpectSpeech _ => Some KExpectSpeech
  | of_ExpectSpeechTimedOut _ => Some KExpectSpeechTimedOut
  | of_Recognize _ => Some KRecognize
  | of_Speak _ => Some KSpeak
  | of_Exception _ => Some KException
  | of_SynchronizeState _ => Some KSynchronizeState
  end.

(** [func (m *Message) Typed() TypedMessage] *)
Definition Typed (m : pointer) : go TypedMessage :=
  d ← Message_String m;
  if String.eqb d "AudioPlayer.ClearQueue" then of_ClearQueue <$> fill new_typed m
  else if String.eqb d "AudioPlayer.Play" then of_Play <$> fill new_typed m
  else if String.eqb d "AudioPlayer.PlaybackState" then of_PlaybackState <$> fill new_typed m
  else if String.eqb d "AudioPlayer.Stop" then of_Stop <$> fill new_typed m
  else if String.eqb d "SpeechRecognizer.ExpectSpeech" then of_ExpectSpeech <$> fill new_typed m
  else if String.eqb d "SpeechRecognizer.ExpectSpeechTimedOut"
  then of_ExpectSpeechTimedOut <$> fill new_typed m
  else if String.eqb d "SpeechRecognizer.Recognize" then of_Recognize <$> fill new_typed m
  else if String.eqb d "SpeechSynthesizer.Speak" then of_Speak <$> fill new_typed m
  else if String.eqb d "System.Exception" then of_Exception <$> fill new_typed m
  else if String.eqb d "System.SynchronizeState" then of_SynchronizeState <$> fill new_typed m
  else mret (of_Message m).

(** The typed message of kind [k] on [m] with every payload field at its
    zero value. *)
Definition blank (k : Kind) (m : pointer) : TypedMessage :=
  match k with
  | KClearQueue => of_ClearQueue (typed.Build m Json.new)
  | KPlay => of_Play (typed.Build m Json.new)
  | KPlaybackState => of_PlaybackState (typed.Build m Json.new)
  | KStop => of_Stop (typed.Build m Json.new)
  | KExpectSpeech => of_ExpectSpeech (typed.Build m Json.new)
  | KExpectSpeechTimedOut => of_ExpectSpeechTimedOut (typed.Build m Json.new)
  | KRecognize => of_Recognize (typed.Build m Json.new)
  | KSpeak => of_Speak (typed.Build m Json.new)
  | KException => of_Exception (typed.Build m Json.new)
  | KSynchronizeState => of_SynchronizeState (typed.Build m Json.new)
  end.

(** The typed message of kind [k] on [m] that decoding the JSON value [v]
    into a zero payload gives. *)
Definition decoded (k : Kind) (m : pointer) (v : Json.value) : TypedMessage :=
  match k with
  | KClearQueue => of_ClearQueue (typed.Build m (Json.decode v Json.new))
  | KPlay => of_Play (typed.Build m (Json.decode v Json.new))
  | KPlaybackState => of_PlaybackState (typed.Build m (Json.decode v Json.new))
  | KStop => of_Stop (typed.Build m (Json.decode v Json.new))
  | KExpectSpeech => of_ExpectSpeech (typed.Build m (Json.decode v Json.new))
  | KExpectSpeechTimedOut => of_ExpectSpeechTimedOut (typed.Build m (Json.decode v Json.new))
  | KRecognize => of_Recognize (typed.Build m (Json.decode v Json.new))
  | KSpeak => of_Speak (typed.Build m (Json.decode v Json.new))
  | KException => of_Exception (typed.Build m (Json.decode v Json.new))
  | KSynchronizeState => of_SynchronizeState (typed.Build m (Json.decode v Json.new))
  end.

(** What [Typed] returns for kind [k] on [m] when the payload is [data]:
    the decoded value when [data] is valid JSON, the blank typed message
    on a syntax error. *)
Definition unmarshalled (k : Kind) (m : pointer) (data : list byte) : TypedMessage :=
  match Json.parse data with
  | Some v => decoded k m v
  | None => blank k m
  end.

(** [func NewPlaybackState(token string, offset time.Duration,
    activity PlayerActivity) *PlaybackState] *)
Definition NewPlaybackState (token : string) (offset : time.Duration)
    (activity : PlayerActivity) : go (PlaybackState.t PlayerActivity) :=
  let m := new_typed in
  p ← NewContext "AudioPlayer" "PlaybackState";
  let m := typed.Build p (typed.Payload m) in
  let m := typed.Build (typed.Message m)
             {| PlaybackState.Token := PlaybackState.Token (typed.Payload m);
                PlaybackState.OffsetInMilliseconds :=
                  Float64.mul (time.Seconds offset) (Float64.of_int 1000);
                PlaybackState.PlayerActivity :=
                  PlaybackState.PlayerActivity (typed.Payload m) |} in
  let m := typed.Build (typed.Message m)
             {| PlaybackState.Token := PlaybackState.Token (typed.Payload m);
                PlaybackState.OffsetInMilliseconds :=
                  PlaybackState.OffsetInMilliseconds (typed.Payload m);
                PlaybackState.PlayerActivity := activity |} in
  let m := typed.Build (typed.Message m)
             {| PlaybackState.Token := token;
                PlaybackState.OffsetInMilliseconds :=
                  PlaybackState.OffsetInMilliseconds (typed.Payload m);
                PlaybackState.PlayerActivity :=
                  PlaybackState.PlayerActivity (typed.Payload m) |} in
  mret m.

End Package.

(** [func NewExpectSpeechTimedOut(messageId string) *ExpectSpeechTimedOut] *)
Definition NewExpectSpeechTimedOut (messageId : string) : go ExpectSpeechTimedOut :=
  let m := new_typed in
  p ← NewEvent "SpeechRecognizer" "ExpectSpeechTimedOut" messageId EmptyString;
  mret (typed.Build p (typed.Payload m)).

(** [func NewRecognize(messageId, dialogRequestId string) *Recognize] *)
Definition NewRecognize (messageId dialogRequestId : string) : go Recognize.t :=
  let m := new_typed in
  p ← NewEvent "SpeechRecognizer" "Recognize" messageId dialogRequestId;
  let m := typed.Build p (typed.Payload m) in
  let m := typed.Build (typed.Message m)
             {| Recognize.Profile := Recognize.Profile (typed.Payload m);
                Recognize.Format := "AUDIO_L16_RATE_16000_CHANNELS_1" |} in
  let m := typed.Build (typed.Message m)
             {| Recognize.Profile := "CLOSE_TALK";
                Recognize.Format := Recognize.Format (typed.Payload m) |} in
  mret m.

(** [func NewSynchronizeState(messageId string) *SynchronizeState] *)
Definition NewSynchronizeState (messageId : string) : go SynchronizeState :=
  let m := new_typed in
  p ← NewEvent "System" "SynchronizeState" messageId EmptyString;
  mret (typed.Build p (typed.Payload m)).

(** ** The registry of the specification *)

(** The ten [(namespace, name)] pairs with the typed message each one
    selects. *)
Definition registry : list (string * string * Kind) :=
  [ ("AudioPlayer", "ClearQueue", KClearQueue);
    ("AudioPlayer", "Play", KPlay);
    ("AudioPlayer", "PlaybackState", KPlaybackState);
    ("AudioPlayer", "Stop", KStop);
    ("SpeechRecognizer", "ExpectSpeech", KExpectSpeech);
    ("SpeechRecognizer", "ExpectSpeechTimedOut", KExpectSpeechTimedOut);
    ("SpeechRecognizer", "Recognize", KRecognize);
    ("SpeechSynthesizer", "Speak", KSpeak);
    ("System", "Exception", KException);
    ("System", "SynchronizeState", KSynchronizeState) ].

(** The entry of the registry for a header, if any. *)
Definition registered (h : gmap string string) : option Kind :=
  snd <$> find (fun e => String.eqb (index h "namespace") (fst (fst e))
                         && String.eqb (index h "name") (snd (fst e)))
               registry.

(** The key of a JSON member selects the field named [n] of the struct
    [P]. *)
Definition selects (P : Type) `{Json.Struct P} (key : list Json.item) (n : string) : Prop :=
  Json.name <$> Json.find_field (P := P) Json.fields (Json.unquote key) = Some n.

(** What decoding the members [ms] of a JSON object into a zero struct [P]
    can leave in its field named [n]. A Go [string] is empty, unless a
    member whose key selects the field holds a JSON string, and then it is
    that string. *)
Definition string_from (P : Type) `{Json.Struct P}
    (ms : list (list Json.item * Json.value)) (n : string) (x : string) : Prop :=
  x = EmptyString
  \/ exists key s, In (key, Json.Str s) ms
       /\ selects P key n
       /\ x = string_of_list_byte (Json.unquote s).

(** A Go [float64] is zero, unless a member whose key selects the field
    holds a JSON number in range, and then it is that number. *)
Definition float64_from (P : Type) `{Json.Struct P}
    (ms : list (list Json.item * Json.value)) (n : string) (x : Float64.t) : Prop :=
  x = Float64.zero
  \/ exists key d, In (key, Json.Number d) ms
       /\ selects P key n
       /\ Json.ParseFloat d = Some x.

(** A field of one of the types of types.go is at its zero value, unless a
    member whose key selects the field was stored into it by the decoding
    of that type. *)
Definition stored_from (P : Type) `{Json.Struct P} {T : Type} `{Json.Field T}
    (ms : list (list Json.item * Json.value)) (n : string) (x : T) : Prop :=
  x = Json.zero
  \/ exists key v cur, In (key, v) ms
       /\ selects P key n
       /\ x = Json.store v cur.

Section Decoded.

Context `{Types}.

(** Every payload field of the typed message [t] is at its zero value or
    comes from a member of [ms] with the key of the field and a value of
    the type of the field. *)
Definition fields_from (ms : list (list Json.item * Json.value)) (t : TypedMessage) : Prop :=
  match t with
  | of_Message _ => True
  | of_ClearQueue v =>
      stored_from (ClearQueue.Payload ClearBehavior) ms "clearBehavior"
        (ClearQueue.ClearBehavior (typed.Payload v))
  | of_Play v =>
      stored_from (Play.Payload AudioItem PlayBehavior) ms "audioItem"
        (Play.AudioItem (typed.Payload v))
      /\ stored_from (Play.Payload AudioItem PlayBehavior) ms "playBehavior"
           (Play.PlayBehavior (typed.Payload v))
  | of_PlaybackState v =>
      string_from (PlaybackState.Payload PlayerActivity) ms "token"
        (PlaybackState.Token (typed.Payload v))
      /\ float64_from (PlaybackState.Payload PlayerActivity) ms "offsetInMilliseconds"
           (PlaybackState.OffsetInMilliseconds (typed.Payload v))
      /\ stored_from (PlaybackState.Payload PlayerActivity) ms "playerActivity"
           (PlaybackState.PlayerActivity (typed.Payload v))
  | of_Stop _ => True
  | of_ExpectSpeech v =>
      float64_from ExpectSpeech.Payload ms "timeoutInMilliseconds"
        (ExpectSpeech.TimeoutInMilliseconds (typed.Payload v))
  | of_ExpectSpeechTimedOut _ => True
  | of_Recognize v =>
      string_from Recognize.Payload ms "profile" (Recognize.Profile (typed.Payload v))
      /\ string_from Recognize.Payload ms "format" (Recognize.Format (typed.Payload v))
  | of_Speak v =>
      string_from Speak.Payload ms "Format" (Speak.Format (typed.Payload v))
      /\ string_from Speak.Payload ms "URL" (Speak.URL (typed.Payload v))
  | of_Exception v =>
      string_from Exception.Payload ms "code" (Exception.Code (typed.Payload v))
      /\ string_from Exception.Payload ms "description"
           (Exception.Description (typed.Payload v))
  | of_SynchronizeState _ => True
  end.

End Decoded.

(** No character of [s] is a dot. *)
Definition no_dot (s : string) : bool :=
  forallb (fun c => negb (Ascii.eqb c ".")) (list_ascii_of_string s).

(** ** Data for the examples *)

(** A JSON text, written with ['] for the double quote. *)
Definition json_text (s : string) : list byte :=
  map (fun c => if Byte.eqb c "'"%byte then Json.quote else c) (list_byte_of_string s).

(** A heap with one message, at address 1. *)
Definition one_message (namespace name : string) (payload : option (list byte)) : heap :=
  {[ 1%positive := {| Header := {[ "namespace" := namespace; "name" := name ]};
                      Payload := payload |} ]}.

(** The [float64] 1.5 and 5000. *)
Definition f1_5 : Float64.t := S754_finite false 6755399441055744 (-52).
Definition f5000 : Float64.t := S754_finite false 5497558138880000 (-40).

Definition speak (url : string) : Speak.t :=
  typed.Build Nil {| Speak.Format := EmptyString; Speak.URL := url |}.

(** An implementation's choice for conversions out of range (the value
    amd64 gives). *)
Definition oob_amd64 (_ : Float64.t) : Z := min_int64.

(** A choice of the types of types.go for the examples: the three
    enumerations as Go strings, the audio item as a value whose contents
    are not looked at. *)
Definition opaque_field : Json.Field unit := {|
  Json.zero := tt;
  Json.store _ cur := cur
|}.

Definition example_types : Types := {|
  AudioItem := unit;
  ClearBehavior := string;
  PlayBehavior := string;
  PlayerActivity := string;
  AudioItem_field := opaque_field;
  ClearBehavior_field := Json.string_field;
  PlayBehavior_field := Json.string_field;
  PlayerActivity_field := Json.string_field
|}.

(** An Exception message whose [code] is a number, not a string. *)
Definition exception_123 : heap :=
  one_message "System" "Exception" (Some (json_text "{'code': 123}")).

(** The same message with a dialogRequestId in its header. *)
Definition exception_123_dialog : heap :=
  {[ 1%positive := {| Header := {[ "namespace" := "System"; "name" := "Exception";
                                   "dialogRequestId" := "d1" ]};
                      Payload := Some (json_text "{'code': 123}") |} ]}.

(** The message [exception_123] with a description of the right type. *)
Definition exception_partial : heap :=
  one_message "System" "Exception"
    (Some (json_text "{'code': 123, 'description': 'no such thing'}")).

Definition expect_5000 : heap :=
  one_message "SpeechRecognizer" "ExpectSpeech"
    (Some (json_text "{'timeoutInMilliseconds': 5000}")).

(** An ExpectSpeech message whose timeout is a JSON string. *)
Definition expect_mistyped : heap :=
  one_message "SpeechRecognizer" "ExpectSpeech"
    (Some (json_text "{'timeoutInMilliseconds': '5000'}")).

Definition expect_1_5 : heap :=
  one_message "SpeechRecognizer" "ExpectSpeech"
    (Some (json_text "{'timeoutInMilliseconds': 1.5}")).

(** A message with no payload, of a registered kind and of an unknown one. *)
Definition stop_nil : heap := one_message "AudioPlayer" "Stop" None.
Definition unknown_kind : heap := one_message "Alerts" "SetAlert" None.

(** A message with an empty header. *)
Definition no_header : heap :=
  {[ 1%positive := {| Header := ∅; Payload := None |} ]}.

(** A Stop message with a payload, and an ExpectSpeech message whose
    payload is an array. *)
Definition stop_with_payload : heap :=
  one_message "AudioPlayer" "Stop" (Some (json_text "{'reason': [1, 2]}")).

Definition expect_array : heap :=
  one_message "SpeechRecognizer" "ExpectSpeech" (Some (json_text "[5000]")).

(** Two Exception messages that differ in their messageId. *)
Definition two_exceptions : heap :=
  {[ 1%positive := {| Header := {[ "namespace" := "System"; "name" := "Exception";
                                   "messageId" := "m1" ]};
                      Payload := None |};
     2%positive := {| Header := {[ "namespace" := "System"; "name" := "Exception";
                                   "messageId" := "m2" ]};
                      Payload := None |} ]}.

(** Two messages with a dot at different places of namespace and name. *)
Definition two_splits : heap :=
  {[ 1%positive := {| Header := {[ "namespace" := "AudioPlayer.Play"; "name" := "Stop" ]};
                      Payload := None |};
     2%positive := {| Header := {[ "namespace" := "AudioPlayer"; "name" := "Play.Stop" ]};
                      Payload := None |} ]}.

(** A PlaybackState message that holds a given count of milliseconds. *)
Definition playback (f : Float64.t) : PlaybackState.t string :=
  typed.Build Nil {| PlaybackState.Token := EmptyString;
                     PlaybackState.OffsetInMilliseconds := f;
                     PlaybackState.PlayerActivity := EmptyString |}.

(** The payload that [NewRecognize] sets. *)
Definition recognize_defaults : Recognize.t :=
  typed.Build Nil {| Recognize.Profile := "CLOSE_TALK";
                     Recognize.Format := "AUDIO_L16_RATE_16000_CHANNELS_1" |}.

(* ===================================================================== *)
(** * Properties *)
(* ===================================================================== *)

(** ** Numbers *)

Lemma wrap64_int64 (z : Z) : is_int64 z = true -> wrap64 z = z.
Proof.
  unfold is_int64, wrap64, min_int64, max_int64.
  intros H. apply andb_true_iff in H as [H1 H2].
  apply Z.leb_le in H1, H2.
  rewrite Z.mod_small; lia.
Qed.

Lemma is_int64_factor (z : Z) :
  is_int64 (z * 1000000) = true -> is_int64 z = true.
Proof.
  unfold is_int64, min_int64, max_int64. intros H.
  apply andb_true_iff in H as [H1 H2]. apply Z.leb_le in H1, H2.
  apply andb_true_iff. split; apply Z.leb_le; lia.
Qed.

(** The integer part of a float that is an integer is that integer. *)
Lemma truncate_integer (f : Float64.t) (k : Z) :
  Float64.is_integer f k -> Float64.truncate f = Some k.
Proof.
  destruct f as [s| | |s m e]; simpl; try tauto.
  - by intros ->.
  - intros H. f_equal. destruct (Z.le_gt_cases 0 e) as [He|He].
    + rewrite Z.max_l, Z.max_r in H by lia. rewrite Z.pow_0_r, Z.mul_1_r in H.
      rewrite Z.shiftl_mul_pow2 by lia. destruct s; lia.
    + rewrite Z.max_r, Z.max_l in H by lia. rewrite Z.pow_0_r, Z.mul_1_r in H.
      rewrite Z.shiftl_div_pow2 by lia.
      assert (0 < 2 ^ (- e)) by (apply Z.pow_pos_nonneg; lia).
      destruct s.
      * replace (Z.pos m) with (- k * 2 ^ (- e)) by lia.
        rewrite Z.div_mul by lia. lia.
      * rewrite H, Z.div_mul by lia. done.
Qed.

(** A conversion in range does not depend on the implementation. *)
Lemma to_int64_truncate (oob : Float64.t -> Z) (f : Float64.t) (z : Z) :
  Float64.truncate f = Some z -> is_int64 z = true -> Float64.to_int64 oob f = z.
Proof. unfold Float64.to_int64. by intros -> ->. Qed.

(** ** ExpectSpeech.Timeout *)

(** Whatever the field holds, [Timeout] is its integer part, in
    milliseconds. *)
Lemma Timeout_truncates (oob : Float64.t -> Z) (m : ExpectSpeech.t) (z : Z) :
  Float64.truncate (ExpectSpeech.TimeoutInMilliseconds (typed.Payload m)) = Some z ->
  is_int64 (z * 1000000) = true ->
  ExpectSpeech.Timeout oob m = z * time.Millisecond.
Proof.
  intros Hz Hr. unfold ExpectSpeech.Timeout, time.mul, time.Millisecond.
  rewrite (to_int64_truncate oob _ z Hz (is_int64_factor z Hr)).
  by apply wrap64_int64.
Qed.

(** ** Strings *)

Lemma append_empty (s : string) : EmptyString +:+ s = s.
Proof. reflexivity. Qed.

Lemma append_String (c : ascii) (a s : string) :
  String.String c a +:+ s = String.String c (a +:+ s).
Proof. reflexivity. Qed.

Ltac simpl_append H :=
  repeat (rewrite append_empty in H || rewrite append_String in H).

Lemma no_dot_append (a b : string) : no_dot (a +:+ String.String "." b) = false.
Proof.
  induction a as [|c a IH].
  - reflexivity.
  - rewrite append_String. unfold no_dot in *. simpl. rewrite IH. apply andb_false_r.
Qed.

(** A discriminator splits in one way only at the dot of a registered
    pair: neither part of such a pair contains a dot. *)
Lemma append_dot_inj (a b ns name : string) :
  no_dot a = true -> no_dot b = true ->
  ns +:+ "." +:+ name = a +:+ "." +:+ b -> ns = a /\ name = b.
Proof.
  revert ns. induction a as [|c a IH]; intros ns Ha Hb E.
  - destruct ns as [|c' ns]; simpl_append E.
    + by injection E as ->.
    + injection E as -> E. subst b. by rewrite no_dot_append in Hb.
  - unfold no_dot in Ha. simpl in Ha. apply andb_true_iff in Ha as [Hc Ha].
    destruct ns as [|c' ns]; simpl_append E.
    + injection E as <- _. discriminate.
    + injection E as -> E. by destruct (IH ns Ha Hb E) as [-> ->].
Qed.

Lemma eqb_discriminator (a b ns name : string) :
  no_dot a = true -> no_dot b = true ->
  String.eqb (ns +:+ "." +:+ name) (a +:+ "." +:+ b)
  = String.eqb ns a && String.eqb name b.
Proof.
  intros Ha Hb.
  destruct (String.eqb_spec (ns +:+ "." +:+ name) (a +:+ "." +:+ b)) as [E|E].
  - destruct (append_dot_inj a b ns name Ha Hb E) as [-> ->].
    by rewrite !String.eqb_refl.
  - destruct (String.eqb_spec ns a) as [->|]; [|done].
    by destruct (String.eqb_spec name b) as [->|].
Qed.

Lemma substring_all (s : string) : substring 0 (String.length s) s = s.
Proof. induction s as [|c s IH]; simpl; [done | by rewrite IH]. Qed.

(** ** The registry *)

Lemma registered_In (h : gmap string string) (k : Kind) :
  registered h = Some k <->
  In (index h "namespace", index h "name", k) registry.
Proof.
  unfold registered, registry. split.
  - cbn [find fst snd].
    repeat match goal with
    | |- context [String.eqb ?a ?b] =>
        destruct (String.eqb_spec a b) as [->|?]; cbn [andb]
    end;
    cbn; intros [= <-] || discriminate; tauto.
  - intros H. cbn [In] in H.
    repeat destruct H as [H|H]; try done; injection H as <- <- <-; reflexivity.
Qed.

Lemma registered_None (h : gmap string string) :
  registered h = None <->
  forall k, ~ In (index h "namespace", index h "name", k) registry.
Proof.
  split.
  - intros E k Hk. apply registered_In in Hk. congruence.
  - intros H. destruct (registered h) as [k|] eqn:E; [|done].
    apply registered_In in E. by destruct (H k).
Qed.

(** The discriminators of the registry are the ten strings of the switch
    in [Typed]. *)
Lemma registry_discriminators :
  map (fun e => fst (fst e) +:+ "." +:+ snd (fst e)) registry
  = [ "AudioPlayer.ClearQueue"; "AudioPlayer.Play"; "AudioPlayer.PlaybackState";
      "AudioPlayer.Stop"; "SpeechRecognizer.ExpectSpeech";
      "SpeechRecognizer.ExpectSpeechTimedOut"; "SpeechRecognizer.Recognize";
      "SpeechSynthesizer.Speak"; "System.Exception"; "System.SynchronizeState" ].
Proof. reflexivity. Qed.

(** ** The heap *)

Lemma load_Some (h : heap) (l : loc) (m : Message) :
  h !! l = Some m -> load (Addr l) h = Ok m h.
Proof. unfold load. by intros ->. Qed.

Lemma Message_String_Some (h : heap) (l : loc) (m : Message) :
  h !! l = Some m ->
  Message_String (Addr l) h
  = Ok (index (Header m) "namespace" +:+ "." +:+ index (Header m) "name") h.
Proof.
  intros Hm. unfold Message_String, mbind, go_bind, mret, go_ret.
  by rewrite (load_Some h l m Hm).
Qed.

Section Properties.

Context `{Types}.

(** ** Typed *)

(** [Typed] on a message of the heap: it returns, leaves the heap as it
    is, and what it returns is decided by the registry entry of the
    header. *)
Lemma Typed_spec (h : heap) (l : loc) (m : Message) :
  h !! l = Some m ->
  Typed (Addr l) h
  = Ok (match registered (Header m) with
        | Some k => unmarshalled k (Addr l) (bytes_of (Payload m))
        | None => of_Message (Addr l)
        end) h.
Proof.
  intros Hm. unfold Typed.
  unfold mbind at 1. unfold go_bind at 1.
  rewrite (Message_String_Some h l m Hm).
  change "AudioPlayer.ClearQueue" with ("AudioPlayer" +:+ "." +:+ "ClearQueue").
  change "AudioPlayer.Play" with ("AudioPlayer" +:+ "." +:+ "Play").
  change "AudioPlayer.PlaybackState" with ("AudioPlayer" +:+ "." +:+ "PlaybackState").
  change "AudioPlayer.Stop" with ("AudioPlayer" +:+ "." +:+ "Stop").
  change "SpeechRecognizer.ExpectSpeech"
    with ("SpeechRecognizer" +:+ "." +:+ "ExpectSpeech").
  change "SpeechRecognizer.ExpectSpeechTimedOut"
    with ("SpeechRecognizer" +:+ "." +:+ "ExpectSpeechTimedOut").
  change "SpeechRecognizer.Recognize" with ("SpeechRecognizer" +:+ "." +:+ "Recognize").
  change "SpeechSynthesizer.Speak" with ("SpeechSynthesizer" +:+ "." +:+ "Speak").
  change "System.Exception" with ("System" +:+ "." +:+ "Exception").
  change "System.SynchronizeState" with ("System" +:+ "." +:+ "SynchronizeState").
  rewrite !eqb_discriminator by reflexivity.
  unfold registered, registry. cbn [find fst snd].
  repeat match goal with
  | |- context [String.eqb ?a ?b] => destruct (String.eqb a b); cbn [andb]
  end;
  unfold fmap, go_fmap, option_fmap, option_map, fill, mbind, go_bind, mret, go_ret;
  rewrite ?(load_Some h l m Hm);
  unfold unmarshalled, Json.Unmarshal, new_typed;
  cbn [typed.Message typed.Payload snd decoded blank];
  try destruct (Json.parse _); reflexivity.
Qed.

Lemma Typed_registered (h : heap) (l : loc) (m : Message) (k : Kind) :
  h !! l = Some m ->
  In (index (Header m) "namespace", index (Header m) "name", k) registry ->
  Typed (Addr l) h = Ok (unmarshalled k (Addr l) (bytes_of (Payload m))) h.
Proof.
  intros Hm Hk. rewrite (Typed_spec h l m Hm).
  apply registered_In in Hk. by rewrite Hk.
Qed.

Lemma kind_of_unmarshalled (k : Kind) (p : pointer) (data : list byte) :
  kind_of (unmarshalled k p data) = Some k.
Proof. unfold unmarshalled. by destruct (Json.parse data), k. Qed.

Lemma GetMessage_unmarshalled (k : Kind) (p : pointer) (data : list byte) :
  GetMessage (unmarshalled k p data) = p.
Proof. unfold unmarshalled. by destruct (Json.parse data), k. Qed.

Lemma unmarshalled_Exception (p : pointer) (data : list byte) :
  unmarshalled KException p data
  = of_Exception (typed.Build p (Json.Unmarshal data Json.new)).
Proof. unfold unmarshalled, Json.Unmarshal. by destruct (Json.parse data). Qed.

Lemma unmarshalled_ExpectSpeech (p : pointer) (data : list byte) :
  unmarshalled KExpectSpeech p data
  = of_ExpectSpeech (typed.Build p (Json.Unmarshal data Json.new)).
Proof. unfold unmarshalled, Json.Unmarshal. by destruct (Json.parse data). Qed.

Lemma load_unmarshalled (h : heap) (l : loc) (m : Message) (k : Kind) :
  h !! l = Some m ->
  load (GetMessage (unmarshalled k (Addr l) (bytes_of (Payload m)))) h = Ok m h.
Proof. intros Hm. rewrite GetMessage_unmarshalled. by apply load_Some. Qed.

(** A payload that is no JSON text, or a JSON text that is no object,
    leaves every payload field at its zero value. *)
Lemma unmarshalled_not_object (k : Kind) (p : pointer) (data : list byte) :
  (forall ms, Json.parse data <> Some (Json.Object ms)) ->
  unmarshalled k p data = blank k p.
Proof.
  intros Hno. unfold unmarshalled.
  destruct (Json.parse data) as [v|]; [|done].
  destruct v; try (by destruct k).
  by destruct (Hno members).
Qed.

(** ** Partial decoding, on every typed message *)

(** A property of a field that every member either leaves alone or
    establishes holds after a whole object, unless the field is as
    before. *)
Lemma object_field {P T : Type} {SP : Json.Struct P} (get : P -> T)
    (R : list Json.item -> Json.value -> T -> Prop) :
  (forall p kv, get (Json.member p kv) = get p \/ R kv.1 kv.2 (get (Json.member p kv))) ->
  forall ms p,
    get (Json.object ms p) = get p
    \/ exists key v, In (key, v) ms /\ R key v (get (Json.object ms p)).
Proof.
  intros Hstep ms. induction ms as [|[key v] ms IH]; intros p; [by left|].
  unfold Json.object in *. cbn [fold_left].
  destruct (IH (Json.member p (key, v))) as [E|(key' & v' & Hin & HR)].
  - rewrite E. destruct (Hstep p (key, v)) as [E'|HR]; [by left|].
    right. exists key, v. split; [by left|exact HR].
  - right. exists key', v'. split; [by right|done].
Qed.

Lemma object_string {P : Type} {SP : Json.Struct P} (get : P -> string) (n : string) :
  (forall p kv,
      get (Json.member p kv) = get p
      \/ exists s, kv.2 = Json.Str s /\ selects P kv.1 n
           /\ get (Json.member p kv) = string_of_list_byte (Json.unquote s)) ->
  get Json.new = EmptyString ->
  forall ms, string_from P ms n (get (Json.object ms Json.new)).
Proof.
  intros Hstep Hz ms.
  destruct (object_field get
              (fun key v x => exists s, v = Json.Str s /\ selects P key n
                                /\ x = string_of_list_byte (Json.unquote s))
              Hstep ms Json.new) as [E|(key & v & Hin & s & -> & Hsel & E)].
  - left. by rewrite E.
  - right. by exists key, s.
Qed.

Lemma object_float64 {P : Type} {SP : Json.Struct P} (get : P -> Float64.t) (n : string) :
  (forall p kv,
      get (Json.member p kv) = get p
      \/ exists d, kv.2 = Json.Number d /\ selects P kv.1 n
           /\ Json.ParseFloat d = Some (get (Json.member p kv))) ->
  get Json.new = Float64.zero ->
  forall ms, float64_from P ms n (get (Json.object ms Json.new)).
Proof.
  intros Hstep Hz ms.
  destruct (object_field get
              (fun key v x => exists d, v = Json.Number d /\ selects P key n
                                /\ Json.ParseFloat d = Some x)
              Hstep ms Json.new) as [E|(key & v & Hin & d & -> & Hsel & E)].
  - left. by rewrite E.
  - right. by exists key, d.
Qed.

Lemma object_stored {P T : Type} {SP : Json.Struct P} {FT : Json.Field T}
    (get : P -> T) (n : string) :
  (forall p kv,
      get (Json.member p kv) = get p
      \/ selects P kv.1 n /\ exists cur, get (Json.member p kv) = Json.store kv.2 cur) ->
  get Json.new = Json.zero ->
  forall ms, stored_from P ms n (get (Json.object ms Json.new)).
Proof.
  intros Hstep Hz ms.
  destruct (object_field get
              (fun key v x => selects P key n /\ exists cur, x = Json.store v cur)
              Hstep ms Json.new) as [E|(key & v & Hin & Hsel & cur & E)].
  - left. by rewrite E.
  - right. by exists key, v, cur.
Qed.

(** One member, on a field of each type: the cases of the search for the
    field that the key selects. *)
Ltac member_cases :=
  intros ? ?; unfold Json.member, selects, Json.find_field;
  cbn [Json.fields find Json.name ClearQueue.struct Exception.struct
       ExpectSpeech.struct Play.struct PlaybackState.struct Recognize.struct
       Speak.struct];
  repeat match goal with
  | |- context [if ?b then _ else _] => destruct b
  end;
  cbn [Json.assign Json.name fmap option_fmap option_map
       ClearQueue.ClearBehavior Exception.Code Exception.Description
       ExpectSpeech.TimeoutInMilliseconds Play.AudioItem Play.PlayBehavior
       PlaybackState.Token PlaybackState.OffsetInMilliseconds
       PlaybackState.PlayerActivity Recognize.Profile Recognize.Format
       Speak.Format Speak.URL];
  try (by left).

Ltac string_member :=
  member_cases;
  match goal with |- context [Json.store ?v _] => destruct v end;
  cbn [Json.store Json.string_field]; eauto.

Ltac float64_member :=
  member_cases;
  match goal with |- context [Json.store ?v _] => destruct v end;
  cbn [Json.store Json.float64_field]; try (by left);
  match goal with |- context [Json.ParseFloat ?d] =>
    destruct (Json.ParseFloat d) eqn:?
  end; eauto.

Ltac stored_member := member_cases; right; eauto.

(** Decoding an object into the zero payload of any kind. *)
Lemma decoded_fields_from (k : Kind) (p : pointer)
    (ms : list (list Json.item * Json.value)) :
  fields_from ms (decoded k p (Json.Object ms)).
Proof.
  destruct k; cbn [decoded fields_from Json.decode typed.Payload]; try exact I.
  - apply (object_stored ClearQueue.ClearBehavior); [stored_member|done].
  - split.
    + apply (object_stored Play.AudioItem); [stored_member|done].
    + apply (object_stored Play.PlayBehavior); [stored_member|done].
  - split; [|split].
    + apply (object_string PlaybackState.Token); [string_member|done].
    + apply (object_float64 PlaybackState.OffsetInMilliseconds); [float64_member|done].
    + apply (object_stored PlaybackState.PlayerActivity); [stored_member|done].
  - apply (object_float64 ExpectSpeech.TimeoutInMilliseconds); [float64_member|done].
  - split.
    + apply (object_string Recognize.Profile); [string_member|done].
    + apply (object_string Recognize.Format); [string_member|done].
  - split.
    + apply (object_string Speak.Format); [string_member|done].
    + apply (object_string Speak.URL); [string_member|done].
  - split.
    + apply (object_string Exception.Code); [string_member|done].
    + apply (object_string Exception.Description); [string_member|done].
Qed.

(** ** The claims about [Typed] *)

(** C1. For each of the ten registered [(namespace, name)] pairs, [Typed]
    on a message whose header holds that pair returns the typed message
    of the corresponding kind, never the plain [*Message]. *)
Theorem Typed_registered_kind (h : heap) (l : loc) (m : Message)
    (ns name : string) (k : Kind) :
  h !! l = Some m ->
  Header m !! "namespace" = Some ns ->
  Header m !! "name" = Some name ->
  In (ns, name, k) registry ->
  exists t, Typed (Addr l) h = Ok t h /\ kind_of t = Some k.
Proof.
  intros Hm Hns Hname Hk.
  exists (unmarshalled k (Addr l) (bytes_of (Payload m))). split.
  - apply (Typed_registered h l m k Hm). unfold index. by rewrite Hns, Hname.
  - apply kind_of_unmarshalled.
Qed.

(** C2. When the [(namespace, name)] pair of the header is not in the
    registry, [Typed] returns the [*Message] it was called on: reading it
    gives the same header and payload. This is no error. *)
Theorem Typed_unregistered (h : heap) (l : loc) (m : Message) :
  h !! l = Some m ->
  (forall k, ~ In (index (Header m) "namespace", index (Header m) "name", k) registry) ->
  Typed (Addr l) h = Ok (of_Message (Addr l)) h
  /\ load (GetMessage (of_Message (Addr l))) h = Ok m h.
Proof.
  intros Hm Hno. split.
  - rewrite (Typed_spec h l m Hm).
    apply registered_None in Hno. by rewrite Hno.
  - by apply load_Some.
Qed.


(** C9. The typed message [Typed] returns holds the pointer it was called
    on: [GetMessage] returns that very pointer, the heap has no other
    message than before, and reading the pointer gives the header and
    payload of the input. *)
Theorem Typed_wraps_message (h : heap) (l : loc) (m : Message) (k : Kind) :
  h !! l = Some m ->
  In (index (Header m) "namespace", index (Header m) "name", k) registry ->
  exists t,
    Typed (Addr l) h = Ok t h
    /\ kind_of t = Some k
    /\ GetMessage t = Addr l
    /\ load (GetMessage t) h = Ok m h.
Proof.
  intros Hm Hk.
  exists (unmarshalled k (Addr l) (bytes_of (Payload m))).
  split; [by apply Typed_registered|].
  split; [apply kind_of_unmarshalled|].
  split; [apply GetMessage_unmarshalled|by apply load_unmarshalled].
Qed.

(** C10. On a registered message with a nil payload [Typed] returns the
    typed message of the registered kind with every payload field at its
    zero value; it returns the same on any payload that is no JSON
    text. *)
Theorem Typed_nil_payload (h : heap) (l : loc) (m : Message) (k : Kind) :
  h !! l = Some m ->
  In (index (Header m) "namespace", index (Header m) "name", k) registry ->
  Payload m = None \/ Json.parse (bytes_of (Payload m)) = None ->
  Typed (Addr l) h = Ok (blank k (Addr l)) h.
Proof.
  intros Hm Hk Hnil.
  rewrite (Typed_registered h l m k Hm Hk).
  f_equal. apply unmarshalled_not_object.
  destruct Hnil as [E|E]; [rewrite E|]; intros ms; by rewrite ?E.
Qed.

(** ** PlaybackState: from a duration to milliseconds and back *)

Lemma NewPlaybackState_Ok (token : string) (offset : time.Duration)
    (activity : PlayerActivity) (h : heap) :
  exists l,
    NewPlaybackState token offset activity h
    = Ok (typed.Build (Addr l)
            {| PlaybackState.Token := token;
               PlaybackState.OffsetInMilliseconds :=
                 Float64.mul (time.Seconds offset) (Float64.of_int 1000);
               PlaybackState.PlayerActivity := activity |})
         (<[l := {| Header := {[ "namespace" := "AudioPlayer";
                                 "name" := "PlaybackState" ]};
                    Payload := None |}]> h).
Proof. by exists (fresh (dom h)). Qed.

(** C5. [NewPlaybackState] followed by [Offset]: 1500ms comes back as
    1500ms, but 1001ms, a whole number of milliseconds, comes back as
    1000ms. The milliseconds are computed in [float64] as
    [offset.Seconds() * 1000], which for 1001ms is
    1000.9999999999999, and [Offset] drops the fraction. *)
Theorem Offset_of_NewPlaybackState (oob : Float64.t -> Z)
    (activity : PlayerActivity) (h : heap) :
  (exists m h',
      NewPlaybackState "tok" (1500 * time.Millisecond) activity h = Ok m h'
      /\ PlaybackState.Offset oob m = 1500 * time.Millisecond)
  /\ (exists m h',
        NewPlaybackState "tok" (1001 * time.Millisecond) activity h = Ok m h'
        /\ PlaybackState.Offset oob m = 1000 * time.Millisecond
        /\ PlaybackState.OffsetInMilliseconds (typed.Payload m)
           = S754_finite false 8804889115230207 (-43)).
Proof.
  split.
  - destruct (NewPlaybackState_Ok "tok" (1500 * time.Millisecond) activity h) as [l E].
    eexists _, _. split; [exact E|]. reflexivity.
  - destruct (NewPlaybackState_Ok "tok" (1001 * time.Millisecond) activity h) as [l E].
    eexists _, _. split; [exact E|]. split; reflexivity.
Qed.

End Properties.

(** ** ExpectSpeech.Timeout *)

(** C4 (amended). [Timeout] is the integer part of the field, in
    milliseconds: a fraction of a millisecond is dropped, and a field that
    is a whole number [k] of milliseconds gives exactly [k] milliseconds
    (as long as that many nanoseconds fit an [int64]). *)
Theorem Timeout_milliseconds (oob : Float64.t -> Z) (m : ExpectSpeech.t) (z : Z) :
  Float64.truncate (ExpectSpeech.TimeoutInMilliseconds (typed.Payload m)) = Some z ->
  is_int64 (z * 1000000) = true ->
  ExpectSpeech.Timeout oob m = z * time.Millisecond
  /\ (forall k,
        Float64.is_integer (ExpectSpeech.TimeoutInMilliseconds (typed.Payload m)) k ->
        ExpectSpeech.Timeout oob m = k * time.Millisecond).
Proof.
  intros Hz Hr. split; [by apply Timeout_truncates|].
  intros k Hk. apply truncate_integer in Hk.
  rewrite Hz in Hk. injection Hk as <-. by apply Timeout_truncates.
Qed.

(** ** NewEvent *)

(** C6. [NewEvent] allocates a message with no payload whose header maps
    namespace, name and messageId to the arguments, maps dialogRequestId to
    the argument exactly when that is not empty, and has no other key. *)
Theorem NewEvent_header (namespace name messageId dialogRequestId : string) (h : heap) :
  exists l m,
    NewEvent namespace name messageId dialogRequestId h = Ok (Addr l) (<[l := m]> h)
    /\ h !! l = None
    /\ Payload m = None
    /\ Header m !! "namespace" = Some namespace
    /\ Header m !! "name" = Some name
    /\ Header m !! "messageId" = Some messageId
    /\ Header m !! "dialogRequestId"
       = (if decide (dialogRequestId = EmptyString) then None else Some dialogRequestId)
    /\ (forall key, is_Some (Header m !! key) ->
          In key ["namespace"; "name"; "messageId"; "dialogRequestId"]).
Proof.
  pose (l := fresh (dom h)).
  assert (Hl : h !! l = None) by (apply not_elem_of_dom, is_fresh).
  unfold NewEvent, mbind, go_bind, mret, go_ret, alloc. fold l.
  destruct (String.eqb_spec dialogRequestId EmptyString) as [->|Hne]; cbn [negb].
  - eexists l, _. split; [reflexivity|]. cbn [Payload Header].
    repeat split; try done.
    intros key [v Hv].
    repeat (rewrite lookup_insert in Hv; case_decide; [subst key; cbn; tauto|]).
    rewrite lookup_singleton in Hv. case_decide; [subst key; cbn; tauto|done].
  - unfold set_header. rewrite lookup_insert_eq. cbn [Payload Header].
    rewrite insert_insert_eq.
    eexists l, _. split; [reflexivity|]. cbn [Payload Header].
    repeat split; try done.
    + by rewrite decide_False.
    + intros key [v Hv].
      repeat (rewrite lookup_insert in Hv; case_decide; [subst key; cbn; tauto|]).
      rewrite lookup_singleton in Hv. case_decide; [subst key; cbn; tauto|done].
Qed.

(** ** Speak.ContentId *)

Lemma HasPrefix_cid (s : string) :
  Speak.HasPrefix s "cid:" = true <-> exists rest, s = "cid:" +:+ rest.
Proof.
  unfold Speak.HasPrefix. split.
  - intros H. apply andb_true_iff in H as [_ H]. apply String.eqb_eq in H.
    destruct s as [|c1 [|c2 [|c3 [|c4 rest]]]]; try discriminate H.
    exists rest. cbn in H. injection H as -> -> -> ->. reflexivity.
  - intros [rest ->]. by destruct rest.
Qed.

(** C7. [ContentId] returns what follows the prefix [cid:] when the URL
    starts with exactly that prefix, and the empty string otherwise. *)
Theorem ContentId_prefix (m : Speak.t) :
  (forall rest, Speak.URL (typed.Payload m) = "cid:" +:+ rest ->
                Speak.ContentId m = rest)
  /\ ((forall rest, Speak.URL (typed.Payload m) <> "cid:" +:+ rest) ->
      Speak.ContentId m = EmptyString).
Proof.
  unfold Speak.ContentId. split.
  - intros rest ->.
    rewrite (proj2 (HasPrefix_cid _)) by eauto. cbn [negb].
    rewrite !append_String, append_empty. cbn [String.length substring Nat.sub].
    rewrite Nat.sub_0_r. apply substring_all.
  - intros Hno.
    destruct (Speak.HasPrefix (Speak.URL (typed.Payload m)) "cid:") eqn:E; [|done].
    apply HasPrefix_cid in E as [rest E]. by destruct (Hno rest).
Qed.

(** ** Message.String *)

(** C8. The discriminator is the namespace, a dot and the name of the
    header, a missing entry counting as the empty string; reading it does
    not fail. *)
Theorem Message_String_discriminator (h : heap) (l : loc) (m : Message)
    (ns name : string) :
  h !! l = Some m ->
  Header m !! "namespace" = Some ns \/ Header m !! "namespace" = None /\ ns = EmptyString ->
  Header m !! "name" = Some name \/ Header m !! "name" = None /\ name = EmptyString ->
  Message_String (Addr l) h = Ok (ns +:+ "." +:+ name) h.
Proof.
  intros Hm Hns Hname. rewrite (Message_String_Some h l m Hm). unfold index.
  destruct Hns as [->|[-> ->]], Hname as [->|[-> ->]]; reflexivity.
Qed.

(* ===================================================================== *)
(** * The properties on the examples *)
(* ===================================================================== *)

Ltac in_registry := cbn [registry In]; tauto.

(** [Typed] on the message at address 1 of a heap, of kind Exception or
    ExpectSpeech: the payload is left to compute, apart from the types of
    types.go. *)
Ltac typed_Exception h :=
  rewrite (Typed_registered (H := example_types) h 1 _ KException eq_refl);
  [rewrite unmarshalled_Exception;
   apply (f_equal (fun x => Ok (of_Exception (typed.Build (Addr 1) x)) h));
   vm_compute; reflexivity
  |in_registry].

Ltac typed_ExpectSpeech h :=
  rewrite (Typed_registered (H := example_types) h 1 _ KExpectSpeech eq_refl);
  [rewrite unmarshalled_ExpectSpeech;
   apply (f_equal (fun x => Ok (of_ExpectSpeech (typed.Build (Addr 1) x)) h));
   vm_compute; reflexivity
  |in_registry].

(** C1 on the Exception message with payload [{"code": 123}]. *)
Lemma Typed_registered_kind_example :
  exists t,
    Typed (H := example_types) (Addr 1) exception_123 = Ok t exception_123
    /\ kind_of t = Some KException.
Proof.
  eapply (Typed_registered_kind exception_123 1 _ "System" "Exception" KException).
  - reflexivity.
  - reflexivity.
  - reflexivity.
  - in_registry.
Defined.

(** C2 on a message of a kind the registry does not have. *)
Lemma Typed_unregistered_example :
  Typed (H := example_types) (Addr 1) unknown_kind = Ok (of_Message (Addr 1)) unknown_kind
  /\ load (GetMessage (H := example_types) (of_Message (Addr 1))) unknown_kind
     = Ok {| Header := {[ "namespace" := "Alerts"; "name" := "SetAlert" ]};
             Payload := None |} unknown_kind.
Proof.
  apply (Typed_unregistered unknown_kind 1).
  - reflexivity.
  - intros k Hk. cbn in Hk. repeat destruct Hk as [Hk|Hk]; discriminate || done.
Defined.


(** C9 on the same message. *)
Lemma Typed_wraps_message_example :
  exists t,
    Typed (H := example_types) (Addr 1) exception_123 = Ok t exception_123
    /\ kind_of t = Some KException
    /\ GetMessage t = Addr 1
    /\ load (GetMessage t) exception_123
       = Ok {| Header := {[ "namespace" := "System"; "name" := "Exception" ]};
               Payload := Some (json_text "{'code': 123}") |} exception_123.
Proof.
  apply (Typed_wraps_message exception_123 1).
  - reflexivity.
  - in_registry.
Defined.

(** C10 on a Stop message with a nil payload. *)
Lemma Typed_nil_payload_example :
  Typed (H := example_types) (Addr 1) stop_nil
  = Ok (of_Stop (typed.Build (Addr 1) Empty.Build_Payload)) stop_nil.
Proof.
  apply (Typed_nil_payload (H := example_types) stop_nil 1 _ KStop eq_refl).
  - in_registry.
  - by left.
Defined.

(** C4 on the payload [{"timeoutInMilliseconds": 5000}]: five seconds. *)
Lemma Timeout_milliseconds_example :
  exists e,
    Typed (H := example_types) (Addr 1) expect_5000 = Ok (of_ExpectSpeech e) expect_5000
    /\ ExpectSpeech.Timeout oob_amd64 e = 5 * time.Second.
Proof.
  exists (typed.Build (Addr 1) {| ExpectSpeech.TimeoutInMilliseconds := f5000 |}).
  split; [typed_ExpectSpeech expect_5000|].
  change (5 * time.Second) with (5000 * time.Millisecond).
  apply (Timeout_milliseconds oob_amd64 _ 5000); reflexivity.
Defined.

(** C4 without the amendment fails on the payload
    [{"timeoutInMilliseconds": 1.5}]: the field decodes to the [float64]
    1.5; 1.5 milliseconds are exactly 1500000 nanoseconds, a [Duration];
    [Timeout] returns 1000000. *)
Lemma Timeout_drops_fraction :
  Typed (H := example_types) (Addr 1) expect_1_5
  = Ok (of_ExpectSpeech (typed.Build (Addr 1)
          {| ExpectSpeech.TimeoutInMilliseconds := f1_5 |})) expect_1_5
  /\ Float64.scaled_is 1000000 f1_5 1500000
  /\ is_int64 1500000 = true
  /\ ExpectSpeech.Timeout oob_amd64
       (typed.Build (Addr 1) {| ExpectSpeech.TimeoutInMilliseconds := f1_5 |})
     = 1000000
  /\ ExpectSpeech.Timeout oob_amd64
       (typed.Build (Addr 1) {| ExpectSpeech.TimeoutInMilliseconds := f1_5 |})
     <> 1500000.
Proof.
  split; [typed_ExpectSpeech expect_1_5|].
  repeat split; try reflexivity. vm_compute. discriminate.
Qed.

(** C6 on the two events of the specification. *)
Lemma NewEvent_header_example :
  (exists l m,
      NewEvent "System" "SynchronizeState" "m1" EmptyString ∅ = Ok (Addr l) {[ l := m ]}
      /\ Header m !! "namespace" = Some "System"
      /\ Header m !! "name" = Some "SynchronizeState"
      /\ Header m !! "messageId" = Some "m1"
      /\ Header m !! "dialogRequestId" = None)
  /\ (exists l m,
        NewEvent "SpeechRecognizer" "Recognize" "m2" "d9" ∅ = Ok (Addr l) {[ l := m ]}
        /\ Header m !! "dialogRequestId" = Some "d9").
Proof.
  split.
  - destruct (NewEvent_header "System" "SynchronizeState" "m1" EmptyString ∅)
      as (l & m & E & _ & _ & Hns & Hname & Hid & Hd & _).
    exists l, m. rewrite insert_empty in E. done.
  - destruct (NewEvent_header "SpeechRecognizer" "Recognize" "m2" "d9" ∅)
      as (l & m & E & _ & _ & _ & _ & _ & Hd & _).
    exists l, m. rewrite insert_empty in E. done.
Defined.

(** C7 on the URLs of the specification; the prefix is case-sensitive. *)
Lemma ContentId_prefix_example :
  Speak.ContentId (speak "cid:abc123") = "abc123"
  /\ Speak.ContentId (speak "https://x/y") = EmptyString
  /\ Speak.ContentId (speak "CID:abc123") = EmptyString.
Proof.
  split; [|split].
  - by apply (proj1 (ContentId_prefix (speak "cid:abc123"))).
  - apply (proj2 (ContentId_prefix (speak "https://x/y"))). intros rest. discriminate.
  - apply (proj2 (ContentId_prefix (speak "CID:abc123"))). intros rest. discriminate.
Defined.

(** C8 on a full header and on an empty one. *)
Lemma Message_String_discriminator_example :
  Message_String (Addr 1) exception_123 = Ok "System.Exception" exception_123
  /\ Message_String (Addr 1) no_header = Ok "." no_header.
Proof.
  split.
  - apply (Message_String_discriminator exception_123 1 _ "System" "Exception" eq_refl);
      by left.
  - apply (Message_String_discriminator no_header 1 _ EmptyString EmptyString eq_refl);
      by right.
Defined.

(* ===================================================================== *)
(** * More of the package: the constructors and the accessors *)
(* ===================================================================== *)

(** ** Allocation *)

Lemma fresh_None (h : heap) : h !! fresh (dom h) = None.
Proof. apply not_elem_of_dom, is_fresh. Qed.

Lemma NewContext_Ok (namespace name : string) (h : heap) :
  NewContext namespace name h
  = Ok (Addr (fresh (dom h)))
       (<[fresh (dom h) := {| Header := {[ "namespace" := namespace; "name" := name ]};
                              Payload := None |}]> h).
Proof. reflexivity. Qed.

(** What [NewEvent] returns, with the header as [index] reads it: a missing
    dialogRequestId reads as the empty string, which is the argument it
    was left out for. *)
Lemma NewEvent_Ok (namespace name messageId dialogRequestId : string) (h : heap) :
  exists hd,
    NewEvent namespace name messageId dialogRequestId h
    = Ok (Addr (fresh (dom h)))
         (<[fresh (dom h) := {| Header := hd; Payload := None |}]> h)
    /\ index hd "namespace" = namespace
    /\ index hd "name" = name
    /\ index hd "messageId" = messageId
    /\ index hd "dialogRequestId" = dialogRequestId
    /\ hd !! "messageId" = Some messageId
    /\ hd !! "dialogRequestId"
       = (if decide (dialogRequestId = EmptyString) then None else Some dialogRequestId).
Proof.
  unfold NewEvent, mbind, go_bind, mret, go_ret, alloc, index.
  destruct (String.eqb_spec dialogRequestId EmptyString) as [->|Hne]; cbn [negb].
  - eexists. split; [reflexivity|]. by repeat split.
  - unfold set_header. rewrite lookup_insert_eq. cbn [Payload Header].
    rewrite insert_insert_eq.
    eexists. split; [reflexivity|]. repeat split; try done.
    rewrite lookup_insert_eq. by rewrite decide_False.
Qed.

(** ** NewContext *)

(** X1. [NewContext] allocates a message with no payload whose header has
    the keys namespace and name and no other (no messageId, no
    dialogRequestId); the discriminator of the new message is the two
    arguments joined by a dot. *)
Theorem NewContext_header (namespace name : string) (h : heap) :
  exists l m,
    NewContext namespace name h = Ok (Addr l) (<[l := m]> h)
    /\ h !! l = None
    /\ Payload m = None
    /\ Header m !! "namespace" = Some namespace
    /\ Header m !! "name" = Some name
    /\ (forall key, is_Some (Header m !! key) -> key = "namespace" \/ key = "name")
    /\ Message_String (Addr l) (<[l := m]> h)
       = Ok (namespace +:+ "." +:+ name) (<[l := m]> h).
Proof.
  eexists _, _. split; [apply NewContext_Ok|].
  split; [apply fresh_None|]. cbn [Payload Header].
  repeat split; try done.
  - intros key [v Hv].
    rewrite lookup_insert in Hv. case_decide; [by left|].
    rewrite lookup_singleton in Hv. case_decide; [by right|done].
  - by rewrite (Message_String_Some _ _ _ (lookup_insert_eq _ _ _)).
Qed.

Lemma parse_nil : Json.parse [] = None.
Proof. reflexivity. Qed.

Section Constructors.

Context `{Types}.

Lemma unmarshalled_nil (k : Kind) (p : pointer) :
  unmarshalled k p (bytes_of None) = blank k p.
Proof. unfold unmarshalled, bytes_of, default. by rewrite parse_nil. Qed.

(** [Typed] on a message with no payload. *)
Lemma Typed_no_payload (h : heap) (l : loc) (hd : gmap string string) :
  h !! l = Some {| Header := hd; Payload := None |} ->
  Typed (Addr l) h
  = Ok (match registered hd with
        | Some k => blank k (Addr l)
        | None => of_Message (Addr l)
        end) h.
Proof.
  intros Hm. rewrite (Typed_spec h l _ Hm). cbn [Header Payload].
  destruct (registered hd); [by rewrite unmarshalled_nil|done].
Qed.

Lemma registered_index (hd : gmap string string) (ns name : string) (k : Kind) :
  index hd "namespace" = ns -> index hd "name" = name ->
  In (ns, name, k) registry -> registered hd = Some k.
Proof. intros <- <- Hk. by apply registered_In. Qed.

(** ** Typed on what the constructors build *)

(** X3. An event built by [NewEvent] carries no payload: [Typed] on it
    returns the typed message of the registered kind with every payload
    field at its zero value, or the message itself when the pair is not
    registered. *)
Theorem Typed_of_NewEvent (namespace name messageId dialogRequestId : string) (h : heap) :
  exists p h',
    NewEvent namespace name messageId dialogRequestId h = Ok p h'
    /\ (forall k, In (namespace, name, k) registry -> Typed p h' = Ok (blank k p) h')
    /\ ((forall k, ~ In (namespace, name, k) registry) ->
        Typed p h' = Ok (of_Message p) h').
Proof.
  destruct (NewEvent_Ok namespace name messageId dialogRequestId h)
    as (hd & E & Hns & Hname & _).
  eexists _, _. split; [exact E|].
  rewrite (Typed_no_payload _ _ hd (lookup_insert_eq _ _ _)). split.
  - intros k Hk. by rewrite (registered_index hd namespace name k Hns Hname Hk).
  - intros Hno. destruct (registered hd) as [k|] eqn:Ek; [|done].
    apply registered_In in Ek. rewrite Hns, Hname in Ek. by destruct (Hno k).
Qed.

(** X4. [NewExpectSpeechTimedOut] builds an event with the given messageId,
    no dialogRequestId and no payload, and [Typed] on its message returns
    an ExpectSpeechTimedOut message that embeds the same [*Message]; its
    payload struct has no field. *)
Theorem NewExpectSpeechTimedOut_Typed (messageId : string) (h : heap) :
  exists x h' m,
    NewExpectSpeechTimedOut messageId h = Ok x h'
    /\ load (typed.Message x) h' = Ok m h'
    /\ Header m !! "messageId" = Some messageId
    /\ Header m !! "dialogRequestId" = None
    /\ Payload m = None
    /\ Message_String (typed.Message x) h'
       = Ok "SpeechRecognizer.ExpectSpeechTimedOut" h'
    /\ exists t,
         Typed (typed.Message x) h' = Ok (of_ExpectSpeechTimedOut t) h'
         /\ typed.Message t = typed.Message x.
Proof.
  destruct (NewEvent_Ok "SpeechRecognizer" "ExpectSpeechTimedOut" messageId EmptyString h)
    as (hd & E & Hns & Hname & _ & _ & Hid & Hd).
  unfold NewExpectSpeechTimedOut, mbind, go_bind, mret, go_ret. rewrite E.
  eexists _, _, _. split; [reflexivity|]. cbn [typed.Message].
  split; [apply load_Some, lookup_insert_eq|]. cbn [Header Payload].
  split; [exact Hid|]. split; [exact Hd|]. split; [done|]. split.
  - rewrite (Message_String_Some _ _ _ (lookup_insert_eq _ _ _)). cbn [Header].
    by rewrite Hns, Hname.
  - rewrite (Typed_no_payload _ _ hd (lookup_insert_eq _ _ _)).
    rewrite (registered_index hd _ _ KExpectSpeechTimedOut Hns Hname)
      by (cbn [registry In]; tauto).
    eexists. split; reflexivity.
Qed.

(** X5. [NewSynchronizeState] builds an event with the given messageId, no
    dialogRequestId and no payload, and [Typed] on its message returns a
    SynchronizeState message that embeds the same [*Message]; its payload
    struct has no field. *)
Theorem NewSynchronizeState_Typed (messageId : string) (h : heap) :
  exists x h' m,
    NewSynchronizeState messageId h = Ok x h'
    /\ load (typed.Message x) h' = Ok m h'
    /\ Header m !! "messageId" = Some messageId
    /\ Header m !! "dialogRequestId" = None
    /\ Payload m = None
    /\ Message_String (typed.Message x) h' = Ok "System.SynchronizeState" h'
    /\ exists t,
         Typed (typed.Message x) h' = Ok (of_SynchronizeState t) h'
         /\ typed.Message t = typed.Message x.
Proof.
  destruct (NewEvent_Ok "System" "SynchronizeState" messageId EmptyString h)
    as (hd & E & Hns & Hname & _ & _ & Hid & Hd).
  unfold NewSynchronizeState, mbind, go_bind, mret, go_ret. rewrite E.
  eexists _, _, _. split; [reflexivity|]. cbn [typed.Message].
  split; [apply load_Some, lookup_insert_eq|]. cbn [Header Payload].
  split; [exact Hid|]. split; [exact Hd|]. split; [done|]. split.
  - rewrite (Message_String_Some _ _ _ (lookup_insert_eq _ _ _)). cbn [Header].
    by rewrite Hns, Hname.
  - rewrite (Typed_no_payload _ _ hd (lookup_insert_eq _ _ _)).
    rewrite (registered_index hd _ _ KSynchronizeState Hns Hname)
      by (cbn [registry In]; tauto).
    eexists. split; reflexivity.
Qed.

(** X6. [NewRecognize] sets the two payload fields of the typed message to
    their fixed values and adds the dialogRequestId when it is not empty,
    but it leaves the raw payload of the message nil: [Typed] on that
    message returns a Recognize message whose two fields are empty. *)
Theorem NewRecognize_Typed (messageId dialogRequestId : string) (h : heap) :
  exists x h' m,
    NewRecognize messageId dialogRequestId h = Ok x h'
    /\ Recognize.Profile (typed.Payload x) = "CLOSE_TALK"
    /\ Recognize.Format (typed.Payload x) = "AUDIO_L16_RATE_16000_CHANNELS_1"
    /\ load (typed.Message x) h' = Ok m h'
    /\ Header m !! "messageId" = Some messageId
    /\ Header m !! "dialogRequestId"
       = (if decide (dialogRequestId = EmptyString) then None else Some dialogRequestId)
    /\ Payload m = None
    /\ Typed (typed.Message x) h'
       = Ok (of_Recognize
               (typed.Build (typed.Message x)
                  {| Recognize.Profile := EmptyString;
                     Recognize.Format := EmptyString |})) h'.
Proof.
  destruct (NewEvent_Ok "SpeechRecognizer" "Recognize" messageId dialogRequestId h)
    as (hd & E & Hns & Hname & _ & _ & Hid & Hd).
  unfold NewRecognize, mbind, go_bind, mret, go_ret. rewrite E.
  eexists _, _, _. split; [reflexivity|]. cbn [typed.Message typed.Payload].
  split; [done|]. split; [done|].
  split; [apply load_Some, lookup_insert_eq|]. cbn [Header Payload].
  split; [exact Hid|]. split; [exact Hd|]. split; [done|].
  rewrite (Typed_no_payload _ _ hd (lookup_insert_eq _ _ _)).
  rewrite (registered_index hd _ _ KRecognize Hns Hname) by (cbn [registry In]; tauto).
  reflexivity.
Qed.

(** X7. [NewPlaybackState] keeps the token and the activity in the typed
    message and builds a context (no messageId, no dialogRequestId) with a
    nil raw payload: [Typed] on that message returns a PlaybackState
    message with every payload field at its zero value. *)
Theorem NewPlaybackState_Typed (token : string) (offset : time.Duration)
    (activity : PlayerActivity) (h : heap) :
  exists x h' m,
    NewPlaybackState token offset activity h = Ok x h'
    /\ PlaybackState.Token (typed.Payload x) = token
    /\ PlaybackState.PlayerActivity (typed.Payload x) = activity
    /\ load (typed.Message x) h' = Ok m h'
    /\ Header m !! "messageId" = None
    /\ Header m !! "dialogRequestId" = None
    /\ Payload m = None
    /\ Message_String (typed.Message x) h' = Ok "AudioPlayer.PlaybackState" h'
    /\ Typed (typed.Message x) h'
       = Ok (of_PlaybackState
               (typed.Build (typed.Message x)
                  {| PlaybackState.Token := EmptyString;
                     PlaybackState.OffsetInMilliseconds := Float64.zero;
                     PlaybackState.PlayerActivity := Json.zero |})) h'.
Proof.
  destruct (NewPlaybackState_Ok token offset activity h) as [l E].
  eexists _, _, _. split; [exact E|]. cbn [typed.Message typed.Payload].
  split; [done|]. split; [done|].
  split; [apply load_Some, lookup_insert_eq|]. cbn [Header Payload].
  split; [done|]. split; [done|]. split; [done|]. split.
  - by rewrite (Message_String_Some _ _ _ (lookup_insert_eq _ _ _)).
  - by rewrite (Typed_no_payload _ _ _ (lookup_insert_eq _ _ _)).
Qed.

(** X8. A Play message obtained by [Typed] from an event that [NewEvent]
    built reads back the messageId and the dialogRequestId the event was
    built with; an empty dialogRequestId, which [NewEvent] leaves out of
    the header, reads back as the empty string. *)
Theorem Play_ids_of_NewEvent (messageId dialogRequestId : string) (h : heap) :
  exists p h' v,
    NewEvent "AudioPlayer" "Play" messageId dialogRequestId h = Ok p h'
    /\ Typed p h' = Ok (of_Play v) h'
    /\ Play.MessageId v h' = Ok messageId h'
    /\ Play.DialogRequestId v h' = Ok dialogRequestId h'.
Proof.
  destruct (NewEvent_Ok "AudioPlayer" "Play" messageId dialogRequestId h)
    as (hd & E & Hns & Hname & Hid & Hd & _).
  eexists _, _, _. split; [exact E|].
  rewrite (Typed_no_payload _ _ hd (lookup_insert_eq _ _ _)).
  rewrite (registered_index hd _ _ KPlay Hns Hname) by (cbn [registry In]; tauto).
  split; [reflexivity|].
  unfold Play.MessageId, Play.DialogRequestId, mbind, go_bind, mret, go_ret.
  cbn [typed.Message]. rewrite (load_Some _ _ _ (lookup_insert_eq _ _ _)).
  cbn [Header]. by rewrite Hid, Hd.
Qed.

End Constructors.

Section Dispatch.

Context `{Types}.

(** ** Typed: what the result depends on *)

(** X10. The payload of a Stop, an ExpectSpeechTimedOut or a
    SynchronizeState message is never looked into: whatever bytes the raw
    payload holds, [Typed] returns the same typed message. *)
Theorem Typed_empty_payload_kinds (h : heap) (l : loc) (m : Message) (k : Kind) :
  h !! l = Some m ->
  In (index (Header m) "namespace", index (Header m) "name", k) registry ->
  k = KStop \/ k = KExpectSpeechTimedOut \/ k = KSynchronizeState ->
  Typed (Addr l) h = Ok (blank k (Addr l)) h.
Proof.
  intros Hm Hk Hempty. rewrite (Typed_registered h l m k Hm Hk). f_equal.
  unfold unmarshalled. destruct (Json.parse _) as [v|]; [|done].
  destruct Hempty as [E|[E|E]]; subst k; cbn [decoded blank];
    by destruct (Json.decode v Json.new).
Qed.

(** X17. An ExpectSpeech message whose payload is no JSON object (nil,
    malformed, an array, ...) has a timeout of zero. *)
Theorem Timeout_zero_without_object (oob : Float64.t -> Z) (h : heap) (l : loc)
    (m : Message) :
  h !! l = Some m ->
  index (Header m) "namespace" = "SpeechRecognizer" ->
  index (Header m) "name" = "ExpectSpeech" ->
  (forall ms, Json.parse (bytes_of (Payload m)) <> Some (Json.Object ms)) ->
  exists e,
    Typed (Addr l) h = Ok (of_ExpectSpeech e) h
    /\ ExpectSpeech.Timeout oob e = 0.
Proof.
  intros Hm Hns Hname Hno.
  assert (Hk : In (index (Header m) "namespace", index (Header m) "name", KExpectSpeech)
                  registry).
  { rewrite Hns, Hname. cbn [registry In]. tauto. }
  rewrite (Typed_registered h l m KExpectSpeech Hm Hk).
  rewrite (unmarshalled_not_object _ _ _ Hno).
  eexists. split; reflexivity.
Qed.


(** ** PlaybackState: offsets up to one second *)

Lemma stored_milliseconds_exact :
  forallb
    (fun n =>
       let k := Z.of_nat n - 1000 in
       match Float64.truncate
               (Float64.mul (time.Seconds (k * 1000000)) (Float64.of_int 1000)) with
       | Some z => z =? k
       | None => false
       end)
    (seq 0 2001) = true.
Proof. vm_compute. reflexivity. Qed.

(** X12. For every whole number of milliseconds from -1000 to 1000,
    [NewPlaybackState] followed by [Offset] gives the duration back. *)
Theorem Offset_round_trip_within_a_second (oob : Float64.t -> Z) (token : string)
    (activity : PlayerActivity) (h : heap) (k : Z) :
  -1000 <= k <= 1000 ->
  exists x h',
    NewPlaybackState token (k * time.Millisecond) activity h = Ok x h'
    /\ PlaybackState.Offset oob x = k * time.Millisecond.
Proof.
  intros Hk.
  destruct (NewPlaybackState_Ok token (k * time.Millisecond) activity h) as [l E].
  eexists _, _. split; [exact E|].
  unfold PlaybackState.Offset. cbn [typed.Payload PlaybackState.OffsetInMilliseconds].
  pose proof stored_milliseconds_exact as Hall.
  rewrite forallb_forall in Hall.
  specialize (Hall (Z.to_nat (k + 1000))).
  replace (Z.of_nat (Z.to_nat (k + 1000)) - 1000) with k in Hall by lia.
  cbv zeta in Hall. unfold time.Millisecond.
  destruct (Float64.truncate _) as [z|] eqn:Hz.
  - assert (Hin : In (Z.to_nat (k + 1000)) (seq 0 2001)) by (apply in_seq; lia).
    apply Hall, Z.eqb_eq in Hin. subst z.
    assert (Hr : is_int64 (k * 1000000) = true).
    { unfold is_int64, min_int64, max_int64.
      apply andb_true_iff. split; apply Z.leb_le; lia. }
    unfold time.mul.
    rewrite (to_int64_truncate oob _ k Hz (is_int64_factor k Hr)).
    by apply wrap64_int64.
  - assert (Hin : In (Z.to_nat (k + 1000)) (seq 0 2001)) by (apply in_seq; lia).
    by apply Hall in Hin.
Qed.

End Dispatch.

(** ** PlaybackState.Offset *)

(** The integer part of a finite [float64] of magnitude [m * 2 ^ e]: it
    has the sign of the float, its magnitude is not above that of the
    float, and is less than one below. *)
Lemma truncate_bounds (s : bool) (m : positive) (e z : Z) :
  Float64.truncate (S754_finite s m e) = Some z ->
  (if s then z <= 0 else 0 <= z)
  /\ Z.abs z * 2 ^ Z.max (- e) 0 <= Zpos m * 2 ^ Z.max e 0
  /\ Zpos m * 2 ^ Z.max e 0 < (Z.abs z + 1) * 2 ^ Z.max (- e) 0.
Proof.
  cbn [Float64.truncate]. intros [= <-].
  set (a := Z.shiftl (Z.pos m) e).
  assert (Ha : 0 <= a) by (apply Z.shiftl_nonneg; lia).
  assert (Habs : Z.abs (if s then - a else a) = a) by (destruct s; lia).
  rewrite Habs. split; [destruct s; lia|].
  destruct (Z.le_gt_cases 0 e) as [He|He].
  - rewrite (Z.max_l e 0), (Z.max_r (- e) 0) by lia.
    unfold a. rewrite Z.shiftl_mul_pow2 by lia. lia.
  - rewrite (Z.max_r e 0), (Z.max_l (- e) 0) by lia.
    assert (Hp : 0 < 2 ^ (- e)) by (apply Z.pow_pos_nonneg; lia).
    unfold a. rewrite Z.shiftl_div_pow2 by lia.
    pose proof (Z.mul_div_le (Z.pos m) (2 ^ (- e)) Hp).
    pose proof (Z.mul_succ_div_gt (Z.pos m) (2 ^ (- e)) Hp).
    lia.
Qed.

(** X11. [Offset] is the stored count of milliseconds with its fraction cut
    off: for a stored value of magnitude [m * 2 ^ e] milliseconds (as long
    as the whole milliseconds, in nanoseconds, fit an [int64]) the offset
    has the sign of the stored value, is never longer than it, and is
    short of it by less than one millisecond. *)
Theorem Offset_truncates {T} (oob : Float64.t -> Z) (x : PlaybackState.t T)
    (s : bool) (m : positive) (e : Z) :
  PlaybackState.OffsetInMilliseconds (typed.Payload x) = S754_finite s m e ->
  is_int64 (Z.shiftl (Zpos m) e * 1000000) = true ->
  (if s then PlaybackState.Offset oob x <= 0 else 0 <= PlaybackState.Offset oob x)
  /\ Z.abs (PlaybackState.Offset oob x) * 2 ^ Z.max (- e) 0
     <= Zpos m * 2 ^ Z.max e 0 * time.Millisecond
  /\ Zpos m * 2 ^ Z.max e 0 * time.Millisecond
     < (Z.abs (PlaybackState.Offset oob x) + time.Millisecond) * 2 ^ Z.max (- e) 0.
Proof.
  intros Hf Hr. unfold PlaybackState.Offset, time.mul, time.Millisecond. rewrite Hf.
  set (z := if s then - Z.shiftl (Z.pos m) e else Z.shiftl (Z.pos m) e).
  assert (Hz : Float64.truncate (S754_finite s m e) = Some z) by reflexivity.
  assert (Ha : 0 <= Z.shiftl (Z.pos m) e) by (apply Z.shiftl_nonneg; lia).
  assert (Hzr : is_int64 (z * 1000000) = true).
  { revert Hr. unfold is_int64, min_int64, max_int64, z. intros Hr.
    apply andb_true_iff in Hr as [H1 H2]. apply Z.leb_le in H1, H2.
    apply andb_true_iff. split; apply Z.leb_le; destruct s; lia. }
  rewrite (to_int64_truncate oob _ z Hz (is_int64_factor z Hzr)).
  rewrite (wrap64_int64 _ Hzr).
  destruct (truncate_bounds s m e z Hz) as (Hs & Hlo & Hhi).
  assert (Hp : 0 < 2 ^ Z.max (- e) 0) by (apply Z.pow_pos_nonneg; lia).
  split; [destruct s; lia|].
  replace (Z.abs (z * 1000000)) with (Z.abs z * 1000000) by lia.
  split; nia.
Qed.

(** ** Speak.ContentId *)

Lemma ContentId_cid (m : Speak.t) (rest : string) :
  Speak.URL (typed.Payload m) = "cid:" +:+ rest -> Speak.ContentId m = rest.
Proof.
  intros E. unfold Speak.ContentId. rewrite E.
  rewrite (proj2 (HasPrefix_cid _)) by eauto. cbn [negb].
  rewrite !append_String, append_empty. cbn [String.length substring Nat.sub].
  rewrite Nat.sub_0_r. apply substring_all.
Qed.

(** X13. A content id that is not empty determines the URL: the URL is
    [cid:] followed by it. *)
Theorem ContentId_nonempty (m : Speak.t) :
  Speak.ContentId m <> EmptyString ->
  Speak.URL (typed.Payload m) = "cid:" +:+ Speak.ContentId m.
Proof.
  intros Hne.
  destruct (Speak.HasPrefix (Speak.URL (typed.Payload m)) "cid:") eqn:E.
  - apply HasPrefix_cid in E as [rest E]. by rewrite (ContentId_cid m rest E).
  - unfold Speak.ContentId in Hne. by rewrite E in Hne.
Qed.

(** X14. An empty content id does not tell a URL without the prefix from
    the URL [cid:] with nothing after it: [ContentId] is empty exactly in
    these two cases. *)
Theorem ContentId_empty (m : Speak.t) :
  Speak.ContentId m = EmptyString <->
  (forall rest, Speak.URL (typed.Payload m) <> "cid:" +:+ rest)
  \/ Speak.URL (typed.Payload m) = "cid:".
Proof.
  split.
  - intros Hempty.
    destruct (Speak.HasPrefix (Speak.URL (typed.Payload m)) "cid:") eqn:E.
    + right. apply HasPrefix_cid in E as [rest E].
      rewrite (ContentId_cid m rest E) in Hempty. by subst rest.
    + left. intros rest Hrest.
      assert (Speak.HasPrefix (Speak.URL (typed.Payload m)) "cid:" = true)
        by (apply HasPrefix_cid; eauto).
      congruence.
  - intros [Hno|Hcid].
    + unfold Speak.ContentId.
      destruct (Speak.HasPrefix (Speak.URL (typed.Payload m)) "cid:") eqn:E; [|done].
      apply HasPrefix_cid in E as [rest E]. by destruct (Hno rest).
    + by apply (ContentId_cid m EmptyString).
Qed.

(** ** Message.String *)

Lemma append_dot_inj_namespace (a b ns name : string) :
  no_dot a = true -> no_dot ns = true ->
  ns +:+ "." +:+ name = a +:+ "." +:+ b -> ns = a /\ name = b.
Proof.
  revert ns. induction a as [|c a IH]; intros ns Ha Hns E.
  - destruct ns as [|c' ns]; simpl_append E.
    + by injection E as ->.
    + injection E as -> _. discriminate Hns.
  - unfold no_dot in Ha. simpl in Ha. apply andb_true_iff in Ha as [Hc Ha].
    destruct ns as [|c' ns]; simpl_append E.
    + injection E as <- _. discriminate.
    + injection E as -> E.
      unfold no_dot in Hns. simpl in Hns. apply andb_true_iff in Hns as [_ Hns].
      by destruct (IH ns Ha Hns E) as [-> ->].
Qed.

(** X15. Two messages whose namespaces hold no dot have the same
    discriminator only when they have the same namespace and the same
    name. *)
Theorem Message_String_injective (h : heap) (l1 l2 : loc) (m1 m2 : Message)
    (d : string) :
  h !! l1 = Some m1 ->
  h !! l2 = Some m2 ->
  no_dot (index (Header m1) "namespace") = true ->
  no_dot (index (Header m2) "namespace") = true ->
  Message_String (Addr l1) h = Ok d h ->
  Message_String (Addr l2) h = Ok d h ->
  index (Header m1) "namespace" = index (Header m2) "namespace"
  /\ index (Header m1) "name" = index (Header m2) "name".
Proof.
  intros H1 H2 Hd1 Hd2 E1 E2.
  rewrite (Message_String_Some h l1 m1 H1) in E1.
  rewrite (Message_String_Some h l2 m2 H2) in E2.
  injection E1 as E1. injection E2 as E2.
  apply (append_dot_inj_namespace _ _ _ _ Hd2 Hd1). congruence.
Qed.

(** ** fill *)

(** X16. [fill] replaces the pointer of [dst] by [src] and decodes on top
    of the payload [dst] already has: when the raw payload of [src] is no
    JSON object, the payload fields of [dst] stay as they were. *)
Theorem fill_keeps_payload {P} `{Json.Struct P} (dst : typed.t P) (h : heap)
    (l : loc) (m : Message) :
  h !! l = Some m ->
  (forall ms, Json.parse (bytes_of (Payload m)) <> Some (Json.Object ms)) ->
  fill dst (Addr l) h = Ok (typed.Build (Addr l) (typed.Payload dst)) h.
Proof.
  intros Hm Hno. unfold fill, mbind, go_bind, mret, go_ret.
  rewrite (load_Some h l m Hm). cbn [typed.Message typed.Payload].
  unfold Json.Unmarshal.
  destruct (Json.parse _) as [v|]; [|done].
  destruct v; try done. by destruct (Hno members).
Qed.

(* ===================================================================== *)
(** * The further properties on examples *)
(* ===================================================================== *)

(** X10 on a Stop message that carries a JSON object. *)
Lemma Typed_empty_payload_kinds_example :
  Typed (H := example_types) (Addr 1) stop_with_payload
  = Ok (of_Stop (typed.Build (Addr 1) Empty.Build_Payload)) stop_with_payload.
Proof.
  apply (Typed_empty_payload_kinds (H := example_types) stop_with_payload 1 _ KStop eq_refl).
  - in_registry.
  - by left.
Defined.

(** X11 on a stored offset of 1.5 milliseconds: one millisecond. *)
Lemma Offset_truncates_example :
  PlaybackState.Offset oob_amd64 (playback f1_5) = 1000000
  /\ 0 <= PlaybackState.Offset oob_amd64 (playback f1_5)
  /\ Z.abs (PlaybackState.Offset oob_amd64 (playback f1_5)) * 2 ^ 52
     <= 6755399441055744 * 1000000
  /\ 6755399441055744 * 1000000
     < (Z.abs (PlaybackState.Offset oob_amd64 (playback f1_5)) + 1000000) * 2 ^ 52.
Proof.
  split; [reflexivity|].
  exact (Offset_truncates oob_amd64 (playback f1_5) false 6755399441055744 (-52)
           eq_refl eq_refl).
Defined.

(** X12 on 999 milliseconds. *)
Lemma Offset_round_trip_within_a_second_example :
  exists x h',
    NewPlaybackState (H := example_types) "tok" (999 * time.Millisecond) "PLAYING" ∅
    = Ok x h'
    /\ PlaybackState.Offset oob_amd64 x = 999 * time.Millisecond.
Proof.
  apply (Offset_round_trip_within_a_second (H := example_types)). lia.
Defined.

(** X13 on the URL [cid:abc123]. *)
Lemma ContentId_nonempty_example :
  Speak.URL (typed.Payload (speak "cid:abc123"))
  = "cid:" +:+ Speak.ContentId (speak "cid:abc123").
Proof.
  apply (ContentId_nonempty (speak "cid:abc123")). by vm_compute.
Defined.

(** X15 on two Exception messages; and two messages with a dot in the
    namespace or in the name that share a discriminator. *)
Lemma Message_String_injective_example :
  (index (Header {| Header := {[ "namespace" := "System"; "name" := "Exception";
                                 "messageId" := "m1" ]}; Payload := None |}) "namespace"
   = index (Header {| Header := {[ "namespace" := "System"; "name" := "Exception";
                                   "messageId" := "m2" ]}; Payload := None |}) "namespace"
   /\ index (Header {| Header := {[ "namespace" := "System"; "name" := "Exception";
                                    "messageId" := "m1" ]}; Payload := None |}) "name"
      = index (Header {| Header := {[ "namespace" := "System"; "name" := "Exception";
                                      "messageId" := "m2" ]}; Payload := None |}) "name")
  /\ Message_String (Addr 1) two_splits = Ok "AudioPlayer.Play.Stop" two_splits
  /\ Message_String (Addr 2) two_splits = Ok "AudioPlayer.Play.Stop" two_splits.
Proof.
  split; [|split; reflexivity].
  by apply (Message_String_injective two_exceptions 1 2 _ _ "System.Exception").
Defined.

(** X16: filling a typed message that holds the payload of [NewRecognize]
    from a message without payload keeps that payload. *)
Lemma fill_keeps_payload_example :
  fill recognize_defaults (Addr 1) stop_nil
  = Ok (typed.Build (Addr 1)
          {| Recognize.Profile := "CLOSE_TALK";
             Recognize.Format := "AUDIO_L16_RATE_16000_CHANNELS_1" |}) stop_nil.
Proof.
  apply (fill_keeps_payload recognize_defaults stop_nil 1 _ eq_refl).
  intros ms. discriminate.
Defined.

(** X17 on an ExpectSpeech message whose payload is the array [[5000]]. *)
Lemma Timeout_zero_without_object_example :
  exists e,
    Typed (H := example_types) (Addr 1) expect_array = Ok (of_ExpectSpeech e) expect_array
    /\ ExpectSpeech.Timeout oob_amd64 e = 0.
Proof.
  apply (Timeout_zero_without_object (H := example_types) oob_amd64 expect_array 1 _ eq_refl).
  - reflexivity.
  - reflexivity.
  - intros ms. vm_compute. discriminate.
Defined.

